(** * blit-protected: a shallow embedding of [blit.c]

    The program decodes an image, uploads it into a host-visible buffer,
    relays it through a protected Vulkan image with two copy commands and
    writes what comes back as a PNG file.  This development embeds

    - [find_image_memory], the memory-type scan, as a function on the
      memory-type table that also logs every table entry it reads;
    - [init_vk], [init_image], [write_image_output] and [main] as programs
      in a small writer/abort monad: every call into Vulkan, GLib and
      GdkPixbuf is an [event] carrying the arguments the C code passes, and
      whatever those libraries hand back is read from an [environment],
      the bytes seen through the mapping of the destination memory among
      them.  What the device does with the submitted commands is not part
      of the program and is not modelled.

    Unsigned 32-bit values are integers of [Z]; narrowing stores go through
    [uint32]; handles are integers chosen by the environment. *)

From Stdlib Require Import ZArith Lia Bool String.
From stdpp Require Import base list.

Local Open Scope Z_scope.

(** ** Machine integers *)

Definition uint32 (z : Z) : Z := z mod 2 ^ 32.

(** [1u << i]: the shift of a 32-bit unsigned by [i]; C leaves it undefined
    from [i = 32] on. *)
Definition shl1u (i : Z) : option Z :=
  if i <? 32 then Some (Z.shiftl 1 i) else None.

(** ** Vulkan values used by the program (numbers of [vulkan_core.h]) *)

Definition VK_MEMORY_PROPERTY_DEVICE_LOCAL_BIT : Z := 1.
Definition VK_MEMORY_PROPERTY_HOST_VISIBLE_BIT : Z := 2.
Definition VK_MEMORY_PROPERTY_PROTECTED_BIT : Z := 32.
Definition VK_MAX_MEMORY_TYPES : nat := 32.

Record VkMemoryType := {
  propertyFlags : Z;
  heapIndex : Z
}.

(** [memoryTypes] is the 32-slot array of the C struct; only the first
    [memoryTypeCount] slots are entries of the table. *)
Record VkPhysicalDeviceMemoryProperties := {
  memoryTypeCount : Z;
  memoryTypes : list VkMemoryType
}.

(** Handles are opaque integers. *)
Definition handle := Z.
Definition VK_NULL_HANDLE : handle := 0.

(** ** [struct data] *)

Record data := {
  instance : handle;
  physical_device : handle;
  memory_properties : VkPhysicalDeviceMemoryProperties;
  device : handle;
  queue : handle;
  cmd_pool : handle;
  src_buffer : handle;
  src_mem : handle;
  dst_image : handle;
  dst_image_mem : handle;
  dst_buffer : handle;
  dst_mem : handle;
  width : Z;
  height : Z;
  row_stride : Z;
  size : Z
}.

(** ** [find_image_memory] *)

(** How the evaluation of a C expression or loop ends. *)
Inductive outcome (A : Type) : Type :=
| Ret (a : A)
| Undefined
| OutOfFuel.
Arguments Ret {A} a.
Arguments Undefined {A}.
Arguments OutOfFuel {A}.

Definition nonzero (z : Z) : bool := negb (z =? 0).

Definition wanted_flags (host protected : bool) : Z :=
  Z.lor (Z.lor VK_MEMORY_PROPERTY_DEVICE_LOCAL_BIT
               (if host then VK_MEMORY_PROPERTY_HOST_VISIBLE_BIT else 0))
        (if protected then VK_MEMORY_PROPERTY_PROTECTED_BIT else 0).

(** The [for] loop from index [i] on.  The first component lists, in
    order, the indices [j] at which [memoryTypes[j]] is read; [&&] does not
    evaluate its right operand when the left one is zero. *)
Fixpoint find_image_memory_loop (mp : VkPhysicalDeviceMemoryProperties)
    (allowed flags : Z) (fuel : nat) (i : Z) : list Z * outcome Z :=
  match fuel with
  | O => ([], OutOfFuel)
  | S fuel' =>
    match shl1u i with
    | None => ([], Undefined)
    | Some bit =>
      if (bit <=? allowed) && (i <=? memoryTypeCount mp) then
        if nonzero (Z.land allowed bit) then
          match memoryTypes mp !! Z.to_nat i with
          | None => ([i], Undefined)
          | Some ty =>
            if nonzero (Z.land (propertyFlags ty) flags) then ([i], Ret i)
            else
              let '(reads, r) :=
                find_image_memory_loop mp allowed flags fuel' (i + 1) in
              (i :: reads, r)
          end
        else find_image_memory_loop mp allowed flags fuel' (i + 1)
      else ([], Ret (-1))
    end
  end.

(** 33 iterations are enough: the shift is undefined at [i = 32]. *)
Definition find_image_memory_fuel : nat := 33.

Definition find_image_memory_scan (vc : data) (allowed : Z)
    (host protected : bool) : list Z * outcome Z :=
  find_image_memory_loop (memory_properties vc) allowed
    (wanted_flags host protected) find_image_memory_fuel 0.

Definition find_image_memory (vc : data) (allowed : Z)
    (host protected : bool) : outcome Z :=
  snd (find_image_memory_scan vc allowed host protected).

Definition find_image_memory_reads (vc : data) (allowed : Z)
    (host protected : bool) : list Z :=
  fst (find_image_memory_scan vc allowed host protected).

(** ** Enumerations and flag bits of the calls made by [init_vk],
    [init_image] and [main] *)

Definition VkResult := Z.
Definition VK_SUCCESS : VkResult := 0.
Definition VK_ERROR_DEVICE_LOST : VkResult := -4.

Definition VK_QUEUE_GRAPHICS_BIT : Z := 1.
Definition VK_DEVICE_QUEUE_CREATE_PROTECTED_BIT : Z := 1.
Definition VK_BUFFER_USAGE_TRANSFER_SRC_BIT : Z := 1.
Definition VK_BUFFER_USAGE_TRANSFER_DST_BIT : Z := 2.
Definition VK_IMAGE_USAGE_TRANSFER_SRC_BIT : Z := 1.
Definition VK_IMAGE_USAGE_TRANSFER_DST_BIT : Z := 2.
Definition VK_IMAGE_CREATE_PROTECTED_BIT : Z := 2048.
Definition VK_FORMAT_R8G8B8A8_UNORM : Z := 37.
Definition VK_COMMAND_POOL_CREATE_RESET_COMMAND_BUFFER_BIT : Z := 2.
Definition VK_COMMAND_POOL_CREATE_PROTECTED_BIT : Z := 4.
Definition VK_PIPELINE_STAGE_TRANSFER_BIT : Z := 4096.
Definition VK_ACCESS_TRANSFER_READ_BIT : Z := 2048.
Definition VK_ACCESS_TRANSFER_WRITE_BIT : Z := 4096.
Definition VK_IMAGE_ASPECT_COLOR_BIT : Z := 1.
Definition VK_WHOLE_SIZE : Z := 2 ^ 64 - 1.
Definition VK_MAKE_VERSION (major minor patch : Z) : Z :=
  Z.lor (Z.lor (Z.shiftl major 22) (Z.shiftl minor 12)) patch.
Definition VK_KHR_SWAPCHAIN_EXTENSION_NAME : string := "VK_KHR_swapchain".

Inductive VkSharingMode := VK_SHARING_MODE_EXCLUSIVE | VK_SHARING_MODE_CONCURRENT.
Inductive VkImageType := VK_IMAGE_TYPE_1D | VK_IMAGE_TYPE_2D | VK_IMAGE_TYPE_3D.
Inductive VkImageTiling := VK_IMAGE_TILING_OPTIMAL | VK_IMAGE_TILING_LINEAR.
Inductive VkCommandBufferLevel :=
  VK_COMMAND_BUFFER_LEVEL_PRIMARY | VK_COMMAND_BUFFER_LEVEL_SECONDARY.

Inductive VkImageLayout :=
| VK_IMAGE_LAYOUT_UNDEFINED
| VK_IMAGE_LAYOUT_GENERAL
| VK_IMAGE_LAYOUT_COLOR_ATTACHMENT_OPTIMAL
| VK_IMAGE_LAYOUT_DEPTH_STENCIL_ATTACHMENT_OPTIMAL
| VK_IMAGE_LAYOUT_DEPTH_STENCIL_READ_ONLY_OPTIMAL
| VK_IMAGE_LAYOUT_SHADER_READ_ONLY_OPTIMAL
| VK_IMAGE_LAYOUT_TRANSFER_SRC_OPTIMAL
| VK_IMAGE_LAYOUT_TRANSFER_DST_OPTIMAL
| VK_IMAGE_LAYOUT_PREINITIALIZED.

Global Instance VkImageLayout_eq_dec : EqDecision VkImageLayout.
Proof. solve_decision. Defined.

(** ** Argument structs, with the fields the program sets (the designated
    initialisers leave every other field zero) *)

Record VkExtent3D := { extent_width : Z; extent_height : Z; extent_depth : Z }.
Record VkOffset3D := { offset_x : Z; offset_y : Z; offset_z : Z }.

Record VkInstanceCreateInfo := {
  pApplicationName : string;
  apiVersion : Z;
  instance_enabledExtensionCount : Z
}.

Record VkDeviceQueueCreateInfo := {
  queueFamilyIndex : Z;
  queueCount : Z;
  queue_flags : Z
}.

Record VkDeviceCreateInfo := {
  chains_protected_features : bool;
  pQueueCreateInfos : list VkDeviceQueueCreateInfo;
  ppEnabledExtensionNames : list string
}.

Record VkBufferCreateInfo := {
  buffer_flags : Z;
  buffer_size : Z;
  buffer_usage : Z;
  buffer_sharingMode : VkSharingMode
}.

Record VkImageCreateInfo := {
  imageType : VkImageType;
  format : Z;
  extent : VkExtent3D;
  mipLevels : Z;
  arrayLayers : Z;
  samples : Z;
  tiling : VkImageTiling;
  image_usage : Z;
  image_flags : Z
}.

Record VkMemoryRequirements := {
  req_size : Z;
  req_alignment : Z;
  memoryTypeBits : Z
}.

Record VkMemoryAllocateInfo := {
  allocationSize : Z;
  memoryTypeIndex : Z
}.

Record VkCommandPoolCreateInfo := {
  pool_queueFamilyIndex : Z;
  pool_flags : Z
}.

Record VkCommandBufferAllocateInfo := {
  commandPool : handle;
  level : VkCommandBufferLevel;
  commandBufferCount : Z
}.

Record VkBufferMemoryBarrier := {
  bmb_srcAccessMask : Z;
  bmb_dstAccessMask : Z;
  bmb_buffer : handle;
  bmb_offset : Z;
  bmb_size : Z
}.

Record VkImageSubresourceRange := {
  range_aspectMask : Z;
  baseMipLevel : Z;
  levelCount : Z;
  range_baseArrayLayer : Z;
  range_layerCount : Z
}.

Record VkImageMemoryBarrier := {
  imb_srcAccessMask : Z;
  imb_dstAccessMask : Z;
  oldLayout : VkImageLayout;
  newLayout : VkImageLayout;
  imb_image : handle;
  subresourceRange : VkImageSubresourceRange
}.

Record VkImageSubresourceLayers := {
  aspectMask : Z;
  mipLevel : Z;
  baseArrayLayer : Z;
  layerCount : Z
}.

Record VkBufferImageCopy := {
  bufferOffset : Z;
  bufferRowLength : Z;
  bufferImageHeight : Z;
  imageSubresource : VkImageSubresourceLayers;
  imageOffset : VkOffset3D;
  imageExtent : VkExtent3D
}.

(** ** GdkPixbuf *)

Inductive GdkColorspace := GDK_COLORSPACE_RGB.

Record GdkPixbuf := {
  pb_colorspace : GdkColorspace;
  pb_has_alpha : bool;
  pb_bits_per_sample : Z;
  pb_width : Z;
  pb_height : Z;
  pb_rowstride : Z;
  pb_pixels : list Byte.byte
}.

Definition gdk_pixbuf_get_width (p : GdkPixbuf) : Z := pb_width p.
Definition gdk_pixbuf_get_height (p : GdkPixbuf) : Z := pb_height p.
Definition gdk_pixbuf_get_rowstride (p : GdkPixbuf) : Z := pb_rowstride p.
Definition gdk_pixbuf_get_byte_length (p : GdkPixbuf) : Z :=
  Z.of_nat (length (pb_pixels p)).
Definition gdk_pixbuf_read_pixels (p : GdkPixbuf) : list Byte.byte := pb_pixels p.

(** [gdk_pixbuf_new_from_data] wraps the bytes found at the pointer it is
    given; nothing is copied. *)
Definition gdk_pixbuf_new_from_data (bytes : list Byte.byte)
    (cs : GdkColorspace) (has_alpha : bool) (bits w h stride : Z) : GdkPixbuf :=
  {| pb_colorspace := cs; pb_has_alpha := has_alpha; pb_bits_per_sample := bits;
     pb_width := w; pb_height := h; pb_rowstride := stride; pb_pixels := bytes |}.

(** ** Calls into the libraries, in the order the program makes them *)

Inductive GLogLevel := G_LOG_LEVEL_ERROR | G_LOG_LEVEL_INFO.

(** Where the default GLib log handler writes a message of each level. *)
Inductive stream := stdout | stderr.
Definition g_log_stream (l : GLogLevel) : stream :=
  match l with
  | G_LOG_LEVEL_ERROR => stderr
  | G_LOG_LEVEL_INFO => stdout
  end.

(** A command recorded into the command buffer. *)
Inductive command :=
| vkCmdPipelineBarrier (srcStageMask dstStageMask dependencyFlags : Z)
    (bufferBarriers : list VkBufferMemoryBarrier)
    (imageBarriers : list VkImageMemoryBarrier)
| vkCmdCopyBufferToImage (srcBuffer dstImage : handle)
    (dstImageLayout : VkImageLayout) (regions : list VkBufferImageCopy)
| vkCmdCopyImageToBuffer (srcImage : handle) (srcImageLayout : VkImageLayout)
    (dstBuffer : handle) (regions : list VkBufferImageCopy).

(** Calls that return a [VkResult] carry it as their last argument. *)
Inductive event :=
| g_log (lvl : GLogLevel) (fmt : string) (args : list (Z + string))
| g_assertion_message (expr : string)
| vkCreateInstance (info : VkInstanceCreateInfo) (res : VkResult)
| vkEnumeratePhysicalDevices (inst : handle) (with_array : bool) (res : VkResult)
| vkGetPhysicalDeviceFeatures2 (pd : handle)
| vkGetPhysicalDeviceProperties (pd : handle)
| vkGetPhysicalDeviceMemoryProperties (pd : handle)
| vkGetPhysicalDeviceQueueFamilyProperties (pd : handle) (with_array : bool)
| vkCreateDevice (pd : handle) (info : VkDeviceCreateInfo) (res : VkResult)
| vkGetDeviceQueue (dev : handle) (family index : Z)
| gdk_pixbuf_new_from_file (filename : string)
| vkCreateBuffer (dev : handle) (info : VkBufferCreateInfo) (res : VkResult)
| vkGetBufferMemoryRequirements (dev buffer : handle)
| vkAllocateMemory (dev : handle) (info : VkMemoryAllocateInfo) (res : VkResult)
| vkBindBufferMemory (dev buffer mem : handle) (offset : Z) (res : VkResult)
| vkMapMemory (dev mem : handle) (offset sz flags : Z) (res : VkResult)
| memcpy (dest : Z) (bytes : list Byte.byte)
| vkUnmapMemory (dev mem : handle)
| g_object_unref
| vkCreateImage (dev : handle) (info : VkImageCreateInfo) (res : VkResult)
| vkGetImageMemoryRequirements (dev image : handle)
| vkBindImageMemory (dev image mem : handle) (offset : Z) (res : VkResult)
| vkCreateCommandPool (dev : handle) (info : VkCommandPoolCreateInfo) (res : VkResult)
| vkAllocateCommandBuffers (dev : handle) (info : VkCommandBufferAllocateInfo)
    (res : VkResult)
| vkBeginCommandBuffer (cb : handle) (flags : Z) (res : VkResult)
| vkCmd (cb : handle) (c : command)
| vkEndCommandBuffer (cb : handle) (res : VkResult)
| vkQueueSubmit (q : handle) (commandBuffers : list handle) (fence : handle)
    (res : VkResult)
| vkDeviceWaitIdle (dev : handle) (res : VkResult)
| gdk_pixbuf_save (pixbuf : GdkPixbuf) (filename type : string) (ok : bool).

(** The call sites whose [VkResult] the program does not look at. *)
Inductive site :=
| at_vkCreateInstance | at_vkEnumeratePhysicalDevices_fill | at_vkCreateDevice
| at_vkCreateBuffer_src | at_vkAllocateMemory_src | at_vkBindBufferMemory_src
| at_vkMapMemory_src
| at_vkCreateImage | at_vkAllocateMemory_image | at_vkBindImageMemory
| at_vkCreateBuffer_dst | at_vkAllocateMemory_dst | at_vkBindBufferMemory_dst
| at_vkCreateCommandPool | at_vkAllocateCommandBuffers
| at_vkBeginCommandBuffer | at_vkEndCommandBuffer
| at_vkQueueSubmit | at_vkDeviceWaitIdle | at_vkMapMemory_dst.

(** ** What the libraries and the device hand back *)

Record environment := {
  env_result : site -> VkResult;
  env_instance : handle;
  env_enumerate_result : VkResult;
  env_physical_device_count : Z;
  env_physical_device : handle;
  env_protectedMemory : Z;
  env_vendorID : Z;
  env_deviceName : string;
  env_memory_properties : VkPhysicalDeviceMemoryProperties;
  env_queue_family_count : Z;
  env_queueFlags : Z;
  env_device : handle;
  env_queue : handle;
  env_pixbuf_new_from_file : string -> GdkPixbuf + string;
  env_src_buffer : handle;
  env_src_requirements : VkMemoryRequirements;
  env_src_mem : handle;
  env_src_map : Z;
  env_dst_image : handle;
  env_image_requirements : VkMemoryRequirements;
  env_dst_image_mem : handle;
  env_dst_buffer : handle;
  env_dst_requirements : VkMemoryRequirements;
  env_dst_mem : handle;
  env_dst_mapped : list Byte.byte;
  env_cmd_pool : handle;
  env_cmd_buffer : handle;
  env_pixbuf_save : option string
}.

(** ** Programs: a log of calls and how the program went on *)

Inductive status (A : Type) : Type :=
| Done (a : A)
| Aborted
| Undef.
Arguments Done {A} a.
Arguments Aborted {A}.
Arguments Undef {A}.

Definition prog (A : Type) : Type := list event * status A.

Global Instance prog_ret : MRet prog := fun A a => ([], Done a).
Global Instance prog_bind : MBind prog := fun A B f m =>
  match m with
  | (t, Done a) => let '(t', s) := f a in (t ++ t', s)
  | (t, Aborted) => (t, Aborted)
  | (t, Undef) => (t, Undef)
  end.

Definition call (e : event) : prog unit := ([e], Done tt).
Definition abort {A} : prog A := ([], Aborted).

Definition of_outcome {A} (o : outcome A) : prog A :=
  match o with
  | Ret a => mret a
  | Undefined | OutOfFuel => ([], Undef)
  end.

(** [g_error] logs at the error level and never returns. *)
Definition g_error {A} (fmt : string) (args : list (Z + string)) : prog A :=
  call (g_log G_LOG_LEVEL_ERROR fmt args);; abort.

Definition g_info (fmt : string) (args : list (Z + string)) : prog unit :=
  call (g_log G_LOG_LEVEL_INFO fmt args).

Definition g_assert (expr : string) (b : bool) : prog unit :=
  if b then mret tt else call (g_assertion_message expr);; abort.

Definition trace {A} (p : prog A) : list event := fst p.
Definition final {A} (p : prog A) : status A := snd p.

(** ** Stores into the fields of [struct data] *)

Definition set_instance (vc : data) (v : handle) : data :=
  {| instance := v; physical_device := physical_device vc;
     memory_properties := memory_properties vc; device := device vc;
     queue := queue vc; cmd_pool := cmd_pool vc; src_buffer := src_buffer vc;
     src_mem := src_mem vc; dst_image := dst_image vc;
     dst_image_mem := dst_image_mem vc; dst_buffer := dst_buffer vc;
     dst_mem := dst_mem vc; width := width vc; height := height vc;
     row_stride := row_stride vc; size := size vc |}.

Definition set_physical_device (vc : data) (v : handle) : data :=
  {| instance := instance vc; physical_device := v;
     memory_properties := memory_properties vc; device := device vc;
     queue := queue vc; cmd_pool := cmd_pool vc; src_buffer := src_buffer vc;
     src_mem := src_mem vc; dst_image := dst_image vc;
     dst_image_mem := dst_image_mem vc; dst_buffer := dst_buffer vc;
     dst_mem := dst_mem vc; width := width vc; height := height vc;
     row_stride := row_stride vc; size := size vc |}.

Definition set_memory_properties (vc : data) (v : VkPhysicalDeviceMemoryProperties) : data :=
  {| instance := instance vc; physical_device := physical_device vc;
     memory_properties := v; device := device vc; queue := queue vc;
     cmd_pool := cmd_pool vc; src_buffer := src_buffer vc;
     src_mem := src_mem vc; dst_image := dst_image vc;
     dst_image_mem := dst_image_mem vc; dst_buffer := dst_buffer vc;
     dst_mem := dst_mem vc; width := width vc; height := height vc;
     row_stride := row_stride vc; size := size vc |}.

Definition set_device (vc : data) (v : handle) : data :=
  {| instance := instance vc; physical_device := physical_device vc;
     memory_properties := memory_properties vc; device := v;
     queue := queue vc; cmd_pool := cmd_pool vc; src_buffer := src_buffer vc;
     src_mem := src_mem vc; dst_image := dst_image vc;
     dst_image_mem := dst_image_mem vc; dst_buffer := dst_buffer vc;
     dst_mem := dst_mem vc; width := width vc; height := height vc;
     row_stride := row_stride vc; size := size vc |}.

Definition set_queue (vc : data) (v : handle) : data :=
  {| instance := instance vc; physical_device := physical_device vc;
     memory_properties := memory_properties vc; device := device vc;
     queue := v; cmd_pool := cmd_pool vc; src_buffer := src_buffer vc;
     src_mem := src_mem vc; dst_image := dst_image vc;
     dst_image_mem := dst_image_mem vc; dst_buffer := dst_buffer vc;
     dst_mem := dst_mem vc; width := width vc; height := height vc;
     row_stride := row_stride vc; size := size vc |}.

Definition set_cmd_pool (vc : data) (v : handle) : data :=
  {| instance := instance vc; physical_device := physical_device vc;
     memory_properties := memory_properties vc; device := device vc;
     queue := queue vc; cmd_pool := v; src_buffer := src_buffer vc;
     src_mem := src_mem vc; dst_image := dst_image vc;
     dst_image_mem := dst_image_mem vc; dst_buffer := dst_buffer vc;
     dst_mem := dst_mem vc; width := width vc; height := height vc;
     row_stride := row_stride vc; size := size vc |}.

Definition set_src_buffer (vc : data) (v : handle) : data :=
  {| instance := instance vc; physical_device := physical_device vc;
     memory_properties := memory_properties vc; device := device vc;
     queue := queue vc; cmd_pool := cmd_pool vc; src_buffer := v;
     src_mem := src_mem vc; dst_image := dst_image vc;
     dst_image_mem := dst_image_mem vc; dst_buffer := dst_buffer vc;
     dst_mem := dst_mem vc; width := width vc; height := height vc;
     row_stride := row_stride vc; size := size vc |}.

Definition set_src_mem (vc : data) (v : handle) : data :=
  {| instance := instance vc; physical_device := physical_device vc;
     memory_properties := memory_properties vc; device := device vc;
     queue := queue vc; cmd_pool := cmd_pool vc; src_buffer := src_buffer vc;
     src_mem := v; dst_image := dst_image vc;
     dst_image_mem := dst_image_mem vc; dst_buffer := dst_buffer vc;
     dst_mem := dst_mem vc; width := width vc; height := height vc;
     row_stride := row_stride vc; size := size vc |}.

Definition set_dst_image (vc : data) (v : handle) : data :=
  {| instance := instance vc; physical_device := physical_device vc;
     memory_properties := memory_properties vc; device := device vc;
     queue := queue vc; cmd_pool := cmd_pool vc; src_buffer := src_buffer vc;
     src_mem := src_mem vc; dst_image := v;
     dst_image_mem := dst_image_mem vc; dst_buffer := dst_buffer vc;
     dst_mem := dst_mem vc; width := width vc; height := height vc;
     row_stride := row_stride vc; size := size vc |}.

Definition set_dst_image_mem (vc : data) (v : handle) : data :=
  {| instance := instance vc; physical_device := physical_device vc;
     memory_properties := memory_properties vc; device := device vc;
     queue := queue vc; cmd_pool := cmd_pool vc; src_buffer := src_buffer vc;
     src_mem := src_mem vc; dst_image := dst_image vc; dst_image_mem := v;
     dst_buffer := dst_buffer vc; dst_mem := dst_mem vc; width := width vc;
     height := height vc; row_stride := row_stride vc; size := size vc |}.

Definition set_dst_buffer (vc : data) (v : handle) : data :=
  {| instance := instance vc; physical_device := physical_device vc;
     memory_properties := memory_properties vc; device := device vc;
     queue := queue vc; cmd_pool := cmd_pool vc; src_buffer := src_buffer vc;
     src_mem := src_mem vc; dst_image := dst_image vc;
     dst_image_mem := dst_image_mem vc; dst_buffer := v;
     dst_mem := dst_mem vc; width := width vc; height := height vc;
     row_stride := row_stride vc; size := size vc |}.

Definition set_dst_mem (vc : data) (v : handle) : data :=
  {| instance := instance vc; physical_device := physical_device vc;
     memory_properties := memory_properties vc; device := device vc;
     queue := queue vc; cmd_pool := cmd_pool vc; src_buffer := src_buffer vc;
     src_mem := src_mem vc; dst_image := dst_image vc;
     dst_image_mem := dst_image_mem vc; dst_buffer := dst_buffer vc;
     dst_mem := v; width := width vc; height := height vc;
     row_stride := row_stride vc; size := size vc |}.

Definition set_width (vc : data) (v : Z) : data :=
  {| instance := instance vc; physical_device := physical_device vc;
     memory_properties := memory_properties vc; device := device vc;
     queue := queue vc; cmd_pool := cmd_pool vc; src_buffer := src_buffer vc;
     src_mem := src_mem vc; dst_image := dst_image vc;
     dst_image_mem := dst_image_mem vc; dst_buffer := dst_buffer vc;
     dst_mem := dst_mem vc; width := v; height := height vc;
     row_stride := row_stride vc; size := size vc |}.

Definition set_height (vc : data) (v : Z) : data :=
  {| instance := instance vc; physical_device := physical_device vc;
     memory_properties := memory_properties vc; device := device vc;
     queue := queue vc; cmd_pool := cmd_pool vc; src_buffer := src_buffer vc;
     src_mem := src_mem vc; dst_image := dst_image vc;
     dst_image_mem := dst_image_mem vc; dst_buffer := dst_buffer vc;
     dst_mem := dst_mem vc; width := width vc; height := v;
     row_stride := row_stride vc; size := size vc |}.

Definition set_row_stride (vc : data) (v : Z) : data :=
  {| instance := instance vc; physical_device := physical_device vc;
     memory_properties := memory_properties vc; device := device vc;
     queue := queue vc; cmd_pool := cmd_pool vc; src_buffer := src_buffer vc;
     src_mem := src_mem vc; dst_image := dst_image vc;
     dst_image_mem := dst_image_mem vc; dst_buffer := dst_buffer vc;
     dst_mem := dst_mem vc; width := width vc; height := height vc;
     row_stride := v; size := size vc |}.

Definition set_size (vc : data) (v : Z) : data :=
  {| instance := instance vc; physical_device := physical_device vc;
     memory_properties := memory_properties vc; device := device vc;
     queue := queue vc; cmd_pool := cmd_pool vc; src_buffer := src_buffer vc;
     src_mem := src_mem vc; dst_image := dst_image vc;
     dst_image_mem := dst_image_mem vc; dst_buffer := dst_buffer vc;
     dst_mem := dst_mem vc; width := width vc; height := height vc;
     row_stride := row_stride vc; size := v |}.

Definition int32 (z : Z) : Z := if z <? 2 ^ 31 then z else z - 2 ^ 32.

(** [struct data data = {}] *)
Definition zero_data : data :=
  {| instance := 0; physical_device := 0;
     memory_properties :=
       {| memoryTypeCount := 0;
          memoryTypes :=
            replicate VK_MAX_MEMORY_TYPES {| propertyFlags := 0; heapIndex := 0 |} |};
     device := 0; queue := 0; cmd_pool := 0; src_buffer := 0; src_mem := 0;
     dst_image := 0; dst_image_mem := 0; dst_buffer := 0; dst_mem := 0;
     width := 0; height := 0; row_stride := 0; size := 0 |}.

(** ** [init_vk] *)

Definition init_vk (env : environment) (vc : data) : prog data :=
  call (vkCreateInstance
          {| pApplicationName := "protected blit";
             apiVersion := VK_MAKE_VERSION 1 1 0;
             instance_enabledExtensionCount := 0 |}
          (env_result env at_vkCreateInstance));;
  let vc := set_instance vc (env_instance env) in
  call (vkEnumeratePhysicalDevices (instance vc) false (env_enumerate_result env));;
  let res := env_enumerate_result env in
  let count := env_physical_device_count env in
  g_assert "res == VK_SUCCESS && count > 0" ((res =? VK_SUCCESS) && (0 <? count));;
  call (vkEnumeratePhysicalDevices (instance vc) true
          (env_result env at_vkEnumeratePhysicalDevices_fill));;
  let vc := set_physical_device vc (env_physical_device env) in
  g_info "%d physical devices\n" [inl count];;
  call (vkGetPhysicalDeviceFeatures2 (physical_device vc));;
  g_assert "protected_features.protectedMemory" (nonzero (env_protectedMemory env));;
  call (vkGetPhysicalDeviceProperties (physical_device vc));;
  g_info "Vendor id %04x, device name %s\n"
    [inl (env_vendorID env); inr (env_deviceName env)];;
  call (vkGetPhysicalDeviceMemoryProperties (physical_device vc));;
  let vc := set_memory_properties vc (env_memory_properties env) in
  call (vkGetPhysicalDeviceQueueFamilyProperties (physical_device vc) false);;
  let count := env_queue_family_count env in
  g_assert "count > 0" (0 <? count);;
  call (vkGetPhysicalDeviceQueueFamilyProperties (physical_device vc) true);;
  g_assert "props[0].queueFlags & VK_QUEUE_GRAPHICS_BIT"
    (nonzero (Z.land (env_queueFlags env) VK_QUEUE_GRAPHICS_BIT));;
  call (vkCreateDevice (physical_device vc)
          {| chains_protected_features := true;
             pQueueCreateInfos :=
               [ {| queueFamilyIndex := 0; queueCount := 1;
                    queue_flags := VK_DEVICE_QUEUE_CREATE_PROTECTED_BIT |} ];
             ppEnabledExtensionNames := [ VK_KHR_SWAPCHAIN_EXTENSION_NAME ] |}
          (env_result env at_vkCreateDevice));;
  let vc := set_device vc (env_device env) in
  call (vkGetDeviceQueue (device vc) 0 0);;
  let vc := set_queue vc (env_queue env) in
  mret vc.

(** ** [init_image] *)

Definition init_image (env : environment) (vc : data) (filename : string)
    : prog data :=
  call (gdk_pixbuf_new_from_file filename);;
  match env_pixbuf_new_from_file env filename with
  | inr message => g_error message []
  | inl pixbuf =>
    let vc := set_width vc (uint32 (gdk_pixbuf_get_width pixbuf)) in
    let vc := set_height vc (uint32 (gdk_pixbuf_get_height pixbuf)) in
    let vc := set_row_stride vc (uint32 (gdk_pixbuf_get_rowstride pixbuf)) in
    let vc := set_size vc (uint32 (gdk_pixbuf_get_byte_length pixbuf)) in
    (* SRC *)
    call (vkCreateBuffer (device vc)
            {| buffer_flags := 0; buffer_size := size vc;
               buffer_usage := VK_BUFFER_USAGE_TRANSFER_SRC_BIT;
               buffer_sharingMode := VK_SHARING_MODE_EXCLUSIVE |}
            (env_result env at_vkCreateBuffer_src));;
    let vc := set_src_buffer vc (env_src_buffer env) in
    call (vkGetBufferMemoryRequirements (device vc) (src_buffer vc));;
    let requirements := env_src_requirements env in
    index ← of_outcome
      (find_image_memory vc (memoryTypeBits requirements) true false);
    call (vkAllocateMemory (device vc)
            {| allocationSize := req_size requirements;
               memoryTypeIndex := uint32 index |}
            (env_result env at_vkAllocateMemory_src));;
    let vc := set_src_mem vc (env_src_mem env) in
    call (vkBindBufferMemory (device vc) (src_buffer vc) (src_mem vc) 0
            (env_result env at_vkBindBufferMemory_src));;
    call (vkMapMemory (device vc) (src_mem vc) 0 (size vc) 0
            (env_result env at_vkMapMemory_src));;
    let map := env_src_map env in
    call (memcpy map (take (Z.to_nat (size vc)) (gdk_pixbuf_read_pixels pixbuf)));;
    call (vkUnmapMemory (device vc) (src_mem vc));;
    call g_object_unref;;
    (* DST *)
    call (vkCreateImage (device vc)
            {| imageType := VK_IMAGE_TYPE_2D;
               format := VK_FORMAT_R8G8B8A8_UNORM;
               extent := {| extent_width := width vc;
                            extent_height := height vc;
                            extent_depth := 1 |};
               mipLevels := 1; arrayLayers := 1; samples := 1;
               tiling := VK_IMAGE_TILING_OPTIMAL;
               image_usage := Z.lor VK_IMAGE_USAGE_TRANSFER_SRC_BIT
                                    VK_IMAGE_USAGE_TRANSFER_DST_BIT;
               image_flags := VK_IMAGE_CREATE_PROTECTED_BIT |}
            (env_result env at_vkCreateImage));;
    let vc := set_dst_image vc (env_dst_image env) in
    call (vkGetImageMemoryRequirements (device vc) (dst_image vc));;
    let requirements := env_image_requirements env in
    index ← of_outcome
      (find_image_memory vc (memoryTypeBits requirements) false true);
    call (vkAllocateMemory (device vc)
            {| allocationSize := req_size requirements;
               memoryTypeIndex := uint32 index |}
            (env_result env at_vkAllocateMemory_image));;
    let vc := set_dst_image_mem vc (env_dst_image_mem env) in
    call (vkBindImageMemory (device vc) (dst_image vc) (dst_image_mem vc) 0
            (env_result env at_vkBindImageMemory));;
    (* OUTPUT MEMORY *)
    call (vkCreateBuffer (device vc)
            {| buffer_flags := 0; buffer_size := size vc;
               buffer_usage := VK_BUFFER_USAGE_TRANSFER_DST_BIT;
               buffer_sharingMode := VK_SHARING_MODE_EXCLUSIVE |}
            (env_result env at_vkCreateBuffer_dst));;
    let vc := set_dst_buffer vc (env_dst_buffer env) in
    call (vkGetBufferMemoryRequirements (device vc) (dst_buffer vc));;
    let requirements := env_dst_requirements env in
    index ← of_outcome
      (find_image_memory vc (memoryTypeBits requirements) true false);
    call (vkAllocateMemory (device vc)
            {| allocationSize := req_size requirements;
               memoryTypeIndex := uint32 index |}
            (env_result env at_vkAllocateMemory_dst));;
    let vc := set_dst_mem vc (env_dst_mem env) in
    call (vkBindBufferMemory (device vc) (dst_buffer vc) (dst_mem vc) 0
            (env_result env at_vkBindBufferMemory_dst));;
    mret vc
  end.

(** ** [write_image_output] *)

Definition write_image_output (env : environment) (vc : data)
    (filename : string) : prog unit :=
  call (vkMapMemory (device vc) (dst_mem vc) 0 (size vc) 0
          (env_result env at_vkMapMemory_dst));;
  let map := env_dst_mapped env in
  let pixbuf :=
    gdk_pixbuf_new_from_data map GDK_COLORSPACE_RGB true 8
      (int32 (width vc)) (int32 (height vc)) (int32 (row_stride vc)) in
  match env_pixbuf_save env with
  | Some message =>
    call (gdk_pixbuf_save pixbuf filename "png" false);;
    g_error "Could not write output file: %s" [inr message]
  | None =>
    call (gdk_pixbuf_save pixbuf filename "png" true);;
    call (vkUnmapMemory (device vc) (dst_mem vc))
  end.

(** ** [main] *)

Definition color_range : VkImageSubresourceRange :=
  {| range_aspectMask := VK_IMAGE_ASPECT_COLOR_BIT;
     baseMipLevel := 0; levelCount := 1;
     range_baseArrayLayer := 0; range_layerCount := 1 |}.

Definition color_layers : VkImageSubresourceLayers :=
  {| aspectMask := VK_IMAGE_ASPECT_COLOR_BIT;
     mipLevel := 0; baseArrayLayer := 0; layerCount := 1 |}.

(** The four [vkCmd*] calls between [vkBeginCommandBuffer] and
    [vkEndCommandBuffer]. *)
Definition record_commands (vc : data) (cmd_buffer : handle) : prog unit :=
  call (vkCmd cmd_buffer
    (vkCmdPipelineBarrier VK_PIPELINE_STAGE_TRANSFER_BIT VK_PIPELINE_STAGE_TRANSFER_BIT 0
       [ {| bmb_srcAccessMask := 0;
            bmb_dstAccessMask := VK_ACCESS_TRANSFER_READ_BIT;
            bmb_buffer := src_buffer vc;
            bmb_offset := 0;
            bmb_size := VK_WHOLE_SIZE |} ]
       [ {| imb_srcAccessMask := 0;
            imb_dstAccessMask := VK_ACCESS_TRANSFER_WRITE_BIT;
            oldLayout := VK_IMAGE_LAYOUT_UNDEFINED;
            newLayout := VK_IMAGE_LAYOUT_TRANSFER_DST_OPTIMAL;
            imb_image := dst_image vc;
            subresourceRange := color_range |} ]));;
  call (vkCmd cmd_buffer
    (vkCmdCopyBufferToImage (src_buffer vc) (dst_image vc)
       VK_IMAGE_LAYOUT_TRANSFER_DST_OPTIMAL
       [ {| bufferOffset := 0;
            bufferRowLength := width vc;
            bufferImageHeight := height vc;
            imageSubresource := color_layers;
            imageOffset := {| offset_x := 0; offset_y := 0; offset_z := 0 |};
            imageExtent := {| extent_width := width vc;
                              extent_height := height vc;
                              extent_depth := 1 |} |} ]));;
  call (vkCmd cmd_buffer
    (vkCmdPipelineBarrier VK_PIPELINE_STAGE_TRANSFER_BIT VK_PIPELINE_STAGE_TRANSFER_BIT 0
       [ {| bmb_srcAccessMask := 0;
            bmb_dstAccessMask := VK_ACCESS_TRANSFER_WRITE_BIT;
            bmb_buffer := dst_buffer vc;
            bmb_offset := 0;
            bmb_size := VK_WHOLE_SIZE |} ]
       [ {| imb_srcAccessMask := VK_ACCESS_TRANSFER_WRITE_BIT;
            imb_dstAccessMask := VK_ACCESS_TRANSFER_READ_BIT;
            oldLayout := VK_IMAGE_LAYOUT_TRANSFER_DST_OPTIMAL;
            newLayout := VK_IMAGE_LAYOUT_TRANSFER_SRC_OPTIMAL;
            imb_image := dst_image vc;
            subresourceRange := color_range |} ]));;
  call (vkCmd cmd_buffer
    (vkCmdCopyImageToBuffer (dst_image vc) VK_IMAGE_LAYOUT_TRANSFER_SRC_OPTIMAL
       (dst_buffer vc)
       [ {| bufferOffset := 0;
            bufferRowLength := width vc;
            bufferImageHeight := height vc;
            imageSubresource := color_layers;
            imageOffset := {| offset_x := 0; offset_y := 0; offset_z := 0 |};
            imageExtent := {| extent_width := width vc;
                              extent_height := height vc;
                              extent_depth := 1 |} |} ])).

(** [argv !! k] is [argv[k]]; [main] reads [argv[1]] and [argv[2]] only
    after the test on [argc]. *)
Definition arg (argv : list string) (k : nat) : string :=
  default ""%string (argv !! k).

Definition main (env : environment) (argv : list string) : prog Z :=
  let argc := Z.of_nat (length argv) in
  let vc := zero_data in
  (if argc <? 3
   then g_error "Require 2 arguments : input_file output_file" []
   else mret tt);;
  vc ← init_vk env vc;
  vc ← init_image env vc (arg argv 1);
  call (vkCreateCommandPool (device vc)
          {| pool_queueFamilyIndex := 0;
             pool_flags := Z.lor VK_COMMAND_POOL_CREATE_RESET_COMMAND_BUFFER_BIT
                                 VK_COMMAND_POOL_CREATE_PROTECTED_BIT |}
          (env_result env at_vkCreateCommandPool));;
  let vc := set_cmd_pool vc (env_cmd_pool env) in
  call (vkAllocateCommandBuffers (device vc)
          {| commandPool := cmd_pool vc;
             level := VK_COMMAND_BUFFER_LEVEL_PRIMARY;
             commandBufferCount := 1 |}
          (env_result env at_vkAllocateCommandBuffers));;
  let cmd_buffer := env_cmd_buffer env in
  call (vkBeginCommandBuffer cmd_buffer 0 (env_result env at_vkBeginCommandBuffer));;
  record_commands vc cmd_buffer;;
  call (vkEndCommandBuffer cmd_buffer (env_result env at_vkEndCommandBuffer));;
  call (vkQueueSubmit (queue vc) [cmd_buffer] VK_NULL_HANDLE
          (env_result env at_vkQueueSubmit));;
  call (vkDeviceWaitIdle (device vc) (env_result env at_vkDeviceWaitIdle));;
  write_image_output env vc (arg argv 2);;
  mret 0.

(** How the process ends: [main] returning [c] exits with status [c];
    [abort] kills it with a signal, which no caller sees as status 0. *)
Definition exits_nonzero (s : status Z) : Prop :=
  match s with
  | Done c => c <> 0
  | Aborted => True
  | Undef => False
  end.

(** ** Reading a trace *)

(** The commands recorded into command buffer [cb], in order. *)
Definition recorded_commands (cb : handle) (t : list event) : list command :=
  omap (fun e => match e with
                 | vkCmd cb' c => if cb' =? cb then Some c else None
                 | _ => None
                 end) t.

Definition is_barrier (c : command) : bool :=
  match c with vkCmdPipelineBarrier _ _ _ _ _ => true | _ => false end.

Definition is_copy (c : command) : bool :=
  match c with
  | vkCmdCopyBufferToImage _ _ _ _ | vkCmdCopyImageToBuffer _ _ _ _ => true
  | vkCmdPipelineBarrier _ _ _ _ _ => false
  end.

(** The layout changes a command declares for [image]. *)
Definition transitions_of (image : handle) (c : command)
    : list (VkImageLayout * VkImageLayout) :=
  match c with
  | vkCmdPipelineBarrier _ _ _ _ ibs =>
    omap (fun b => if imb_image b =? image
                   then Some (oldLayout b, newLayout b) else None) ibs
  | _ => []
  end.

Definition image_transitions (image : handle) (cs : list command)
    : list (VkImageLayout * VkImageLayout) :=
  concat (map (transitions_of image) cs).

(** The layouts [image] goes through, starting from [l0]: every declared
    transition moves it to its new layout. *)
Definition layout_history (l0 : VkImageLayout) (image : handle)
    (cs : list command) : list VkImageLayout :=
  l0 :: map snd (image_transitions image cs).

(** The regions of the copy commands, in order. *)
Definition copy_regions (cs : list command) : list (list VkBufferImageCopy) :=
  omap (fun c => match c with
                 | vkCmdCopyBufferToImage _ _ _ rs => Some rs
                 | vkCmdCopyImageToBuffer _ _ _ rs => Some rs
                 | vkCmdPipelineBarrier _ _ _ _ _ => None
                 end) cs.

(** The memory handles passed to [vkMapMemory], in order. *)
Definition mapped_memory (t : list event) : list handle :=
  omap (fun e => match e with
                 | vkMapMemory _ mem _ _ _ _ => Some mem
                 | _ => None
                 end) t.

Definition is_submit (e : event) : bool :=
  match e with vkQueueSubmit _ _ _ _ => true | _ => false end.

Definition is_wait_idle (e : event) : bool :=
  match e with vkDeviceWaitIdle _ _ => true | _ => false end.

Definition is_save (e : event) : bool :=
  match e with gdk_pixbuf_save _ _ _ _ => true | _ => false end.

(** Every call made from [init_vk] on goes to Vulkan or GdkPixbuf; the
    log and assertion messages are the only events that do not. *)
Definition is_library_call (e : event) : bool :=
  match e with
  | g_log _ _ _ | g_assertion_message _ => false
  | _ => true
  end.

Definition written_to_stderr (e : event) : bool :=
  match e with
  | g_log l _ _ => match g_log_stream l with stderr => true | stdout => false end
  | g_assertion_message _ => true
  | _ => false
  end.

(** The [VkResult] an event carries, if any. *)
Definition result_of (e : event) : option VkResult :=
  match e with
  | vkCreateInstance _ r | vkEnumeratePhysicalDevices _ _ r
  | vkCreateDevice _ _ r | vkCreateBuffer _ _ r | vkAllocateMemory _ _ r
  | vkBindBufferMemory _ _ _ _ r | vkMapMemory _ _ _ _ _ r
  | vkCreateImage _ _ r | vkBindImageMemory _ _ _ _ r
  | vkCreateCommandPool _ _ r | vkAllocateCommandBuffers _ _ r
  | vkBeginCommandBuffer _ _ r | vkEndCommandBuffer _ r
  | vkQueueSubmit _ _ _ r | vkDeviceWaitIdle _ r => Some r
  | _ => None
  end.

(** A call failed: it returned an error code (negative [VkResult]). *)
Definition failed (e : event) : bool :=
  match result_of e with
  | Some r => r <? 0
  | None => false
  end.

(** The files a run wrote: name and content of each successful
    [gdk_pixbuf_save].  PNG is lossless, so decoding the file gives back
    the pixbuf that was saved. *)
Definition written_files (t : list event) : list (string * GdkPixbuf) :=
  omap (fun e => match e with
                 | gdk_pixbuf_save p f _ true => Some (f, p)
                 | _ => None
                 end) t.

(** The bytes the host copied through a mapping. *)
Definition host_written (t : list event) : list Byte.byte :=
  concat (omap (fun e => match e with
                         | memcpy _ bs => Some bs
                         | _ => None
                         end) t).

(** ** Valid input *)

(** An 8-bit RGBA pixbuf in the layout [gdk_pixbuf_new] gives it: four
    bytes a pixel and no padding between rows; width, height and row
    stride are C [int]s, and the byte length fits the 32-bit [size] field
    of [struct data]. *)
Definition rgba8 (p : GdkPixbuf) : Prop :=
  pb_has_alpha p = true
  /\ pb_bits_per_sample p = 8
  /\ 0 < pb_width p /\ 0 < pb_height p < 2 ^ 31
  /\ pb_rowstride p = 4 * pb_width p /\ pb_rowstride p < 2 ^ 31
  /\ Z.of_nat (length (pb_pixels p)) = pb_rowstride p * pb_height p
  /\ pb_rowstride p * pb_height p < 2 ^ 32.

(** ** A concrete run: a two-type device and a 2x1 image *)

Definition table_of (count : Z) (flags : list Z) : VkPhysicalDeviceMemoryProperties :=
  {| memoryTypeCount := count;
     memoryTypes :=
       take VK_MAX_MEMORY_TYPES
         (map (fun f => {| propertyFlags := f; heapIndex := 0 |}) flags
          ++ replicate VK_MAX_MEMORY_TYPES {| propertyFlags := 0; heapIndex := 0 |}) |}.

Definition with_table (mp : VkPhysicalDeviceMemoryProperties) : data :=
  set_memory_properties zero_data mp.

Definition red_green : GdkPixbuf :=
  {| pb_colorspace := GDK_COLORSPACE_RGB; pb_has_alpha := true;
     pb_bits_per_sample := 8; pb_width := 2; pb_height := 1; pb_rowstride := 8;
     pb_pixels := [Byte.xff; Byte.x00; Byte.x00; Byte.xff;
                   Byte.x00; Byte.xff; Byte.x00; Byte.xff] |}.

Definition sample_env : environment :=
  {| env_result := fun _ => VK_SUCCESS;
     env_instance := 1;
     env_enumerate_result := VK_SUCCESS;
     env_physical_device_count := 1;
     env_physical_device := 2;
     env_protectedMemory := 1;
     env_vendorID := 32902;
     env_deviceName := "gpu";
     env_memory_properties := table_of 2 [15; 33];
     env_queue_family_count := 1;
     env_queueFlags := 7;
     env_device := 3;
     env_queue := 4;
     env_pixbuf_new_from_file := fun f =>
       if String.eqb f "in.png" then inl red_green else inr "no such file"%string;
     env_src_buffer := 5;
     env_src_requirements := {| req_size := 8; req_alignment := 64; memoryTypeBits := 1 |};
     env_src_mem := 6;
     env_src_map := 4096;
     env_dst_image := 7;
     env_image_requirements := {| req_size := 4096; req_alignment := 4096; memoryTypeBits := 2 |};
     env_dst_image_mem := 8;
     env_dst_buffer := 9;
     env_dst_requirements := {| req_size := 8; req_alignment := 64; memoryTypeBits := 1 |};
     env_dst_mem := 10;
     env_dst_mapped := pb_pixels red_green;
     env_cmd_pool := 11;
     env_cmd_buffer := 12;
     env_pixbuf_save := None |}.

Definition sample_argv : list string := ["blit-protected"; "in.png"; "out.png"]%string.

(** The same device, lost at the submission: [vkQueueSubmit] and
    [vkDeviceWaitIdle] return [VK_ERROR_DEVICE_LOST] and the destination
    buffer is left as it was. *)
Definition lost_env : environment :=
  {| env_result := fun s =>
       match s with
       | at_vkQueueSubmit | at_vkDeviceWaitIdle => VK_ERROR_DEVICE_LOST
       | _ => VK_SUCCESS
       end;
     env_instance := env_instance sample_env;
     env_enumerate_result := env_enumerate_result sample_env;
     env_physical_device_count := env_physical_device_count sample_env;
     env_physical_device := env_physical_device sample_env;
     env_protectedMemory := env_protectedMemory sample_env;
     env_vendorID := env_vendorID sample_env;
     env_deviceName := env_deviceName sample_env;
     env_memory_properties := env_memory_properties sample_env;
     env_queue_family_count := env_queue_family_count sample_env;
     env_queueFlags := env_queueFlags sample_env;
     env_device := env_device sample_env;
     env_queue := env_queue sample_env;
     env_pixbuf_new_from_file := env_pixbuf_new_from_file sample_env;
     env_src_buffer := env_src_buffer sample_env;
     env_src_requirements := env_src_requirements sample_env;
     env_src_mem := env_src_mem sample_env;
     env_src_map := env_src_map sample_env;
     env_dst_image := env_dst_image sample_env;
     env_image_requirements := env_image_requirements sample_env;
     env_dst_image_mem := env_dst_image_mem sample_env;
     env_dst_buffer := env_dst_buffer sample_env;
     env_dst_requirements := env_dst_requirements sample_env;
     env_dst_mem := env_dst_mem sample_env;
     env_dst_mapped := replicate 8 Byte.x00;
     env_cmd_pool := env_cmd_pool sample_env;
     env_cmd_buffer := env_cmd_buffer sample_env;
     env_pixbuf_save := None |}.

(** ** The classifier in the words of its contract

    [select_memory_type] is the contract of the memory classifier, not a
    transcription of [find_image_memory]; the two are compared below. *)

Definition includes (flags bit : Z) : bool := Z.land flags bit =? bit.

(** Entry [i] may be chosen: bit [i] of the mask is set and the entry has
    the device-local flag, the host-visible flag if asked for, and the
    protected flag if asked for. *)
Definition eligible (allowed : Z) (host protected : bool) (i : nat)
    (ty : VkMemoryType) : bool :=
  Z.testbit allowed (Z.of_nat i)
  && includes (propertyFlags ty) VK_MEMORY_PROPERTY_DEVICE_LOCAL_BIT
  && (negb host || includes (propertyFlags ty) VK_MEMORY_PROPERTY_HOST_VISIBLE_BIT)
  && (negb protected || includes (propertyFlags ty) VK_MEMORY_PROPERTY_PROTECTED_BIT).

(** The lowest eligible index of the table, or -1. *)
Definition select_memory_type (mp : VkPhysicalDeviceMemoryProperties)
    (allowed : Z) (host protected : bool) : Z :=
  match list_find (fun '(i, ty) => eligible allowed host protected i ty = true)
          (imap pair (take (Z.to_nat (memoryTypeCount mp)) (memoryTypes mp))) with
  | Some (i, _) => Z.of_nat i
  | None => -1
  end.

(** ** The round trip in words

    For every valid RGBA input, a run that goes through the whole pipeline
    writes an output identical to the decoded input. *)
Definition output_identical_to_input (env : environment) (argv : list string)
    : Prop :=
  forall (input : GdkPixbuf) (r : Z),
    env_pixbuf_new_from_file env (arg argv 1) = inl input ->
    rgba8 input ->
    final (main env argv) = Done r ->
    written_files (trace (main env argv)) = [(arg argv 2, input)].

(** ** Failures *)

(** The error-handling design in words: the first failure aborts and no
    output file is produced.  Here: if some call of the run failed, the
    run aborted and the encoder was never called. *)
Definition aborts_on_any_failure (env : environment) (argv : list string) : Prop :=
  Exists (fun e => failed e = true) (trace (main env argv)) ->
  final (main env argv) = Aborted
  /\ Forall (fun e => is_save e = false) (trace (main env argv)).

(** The tests [main], [init_vk] and [init_image] make before any resource
    is created. *)
Definition startup_checks (env : environment) (argv : list string) : bool :=
  (3 <=? Z.of_nat (length argv))
  && (env_enumerate_result env =? VK_SUCCESS)
  && (0 <? env_physical_device_count env)
  && nonzero (env_protectedMemory env)
  && (0 <? env_queue_family_count env)
  && nonzero (Z.land (env_queueFlags env) VK_QUEUE_GRAPHICS_BIT)
  && match env_pixbuf_new_from_file env (arg argv 1) with
     | inl _ => true
     | inr _ => false
     end.

(** The events up to the first one satisfying [p], and those after it. *)
Fixpoint split_at (p : event -> bool) (t : list event)
    : list event * list event :=
  match t with
  | [] => ([], [])
  | e :: t' =>
    if p e then ([], t')
    else let '(before, after) := split_at p t' in (e :: before, after)
  end.

Definition before_submit (t : list event) : list event :=
  fst (split_at is_submit t).
Definition submit_to_idle (t : list event) : list event :=
  fst (split_at is_wait_idle (snd (split_at is_submit t))).
Definition after_idle (t : list event) : list event :=
  snd (split_at is_wait_idle (snd (split_at is_submit t))).

Inductive command_kind := Barrier | BufferToImage | ImageToBuffer.

Definition kind (c : command) : command_kind :=
  match c with
  | vkCmdPipelineBarrier _ _ _ _ _ => Barrier
  | vkCmdCopyBufferToImage _ _ _ _ => BufferToImage
  | vkCmdCopyImageToBuffer _ _ _ _ => ImageToBuffer
  end.

(** The calls that build the three transfer resources. *)
Definition is_resource_call (e : event) : bool :=
  match e with
  | vkCreateBuffer _ _ _ | vkCreateImage _ _ _
  | vkGetBufferMemoryRequirements _ _ | vkGetImageMemoryRequirements _ _
  | vkAllocateMemory _ _ _
  | vkBindBufferMemory _ _ _ _ _ | vkBindImageMemory _ _ _ _ _ => true
  | _ => false
  end.

(** ** More readers of a trace, and more environments *)

(** The table fills the 32-slot array of the C struct. *)
Definition full_table (mp : VkPhysicalDeviceMemoryProperties) : Prop :=
  length (memoryTypes mp) = VK_MAX_MEMORY_TYPES.

(** The four assertions of [init_vk]. *)
Definition init_vk_checks (env : environment) : bool :=
  (env_enumerate_result env =? VK_SUCCESS)
  && (0 <? env_physical_device_count env)
  && nonzero (env_protectedMemory env)
  && (0 <? env_queue_family_count env)
  && nonzero (Z.land (env_queueFlags env) VK_QUEUE_GRAPHICS_BIT).

(** Calls on the instance and the physical device, and messages: what
    [init_vk] does before it creates the logical device. *)
Definition instance_level (e : event) : bool :=
  match e with
  | g_log _ _ _ | g_assertion_message _
  | vkCreateInstance _ _ | vkEnumeratePhysicalDevices _ _ _
  | vkGetPhysicalDeviceFeatures2 _ | vkGetPhysicalDeviceProperties _
  | vkGetPhysicalDeviceMemoryProperties _
  | vkGetPhysicalDeviceQueueFamilyProperties _ _ => true
  | _ => false
  end.

(** The calls through which the host touches buffer memory. *)
Definition is_host_access (e : event) : bool :=
  match e with
  | vkMapMemory _ _ _ _ _ _ | memcpy _ _ | vkUnmapMemory _ _
  | gdk_pixbuf_save _ _ _ _ => true
  | _ => false
  end.

(** The memory handles passed to [vkUnmapMemory], in order. *)
Definition unmapped_memory (t : list event) : list handle :=
  omap (fun e => match e with
                 | vkUnmapMemory _ mem => Some mem
                 | _ => None
                 end) t.

(** The memory allocations requested, in order. *)
Definition allocations (t : list event) : list VkMemoryAllocateInfo :=
  omap (fun e => match e with
                 | vkAllocateMemory _ info _ => Some info
                 | _ => None
                 end) t.

(** The steps of recording and submitting, without the arguments of the
    commands. *)
Inductive transfer_step :=
| step_begin (cb : handle) (flags : Z)
| step_command (cb : handle) (k : command_kind)
| step_end (cb : handle)
| step_submit (q : handle) (commandBuffers : list handle) (fence : handle)
| step_wait_idle (dev : handle).

Definition transfer_steps (t : list event) : list transfer_step :=
  omap (fun e => match e with
                 | vkBeginCommandBuffer cb flags _ => Some (step_begin cb flags)
                 | vkCmd cb c => Some (step_command cb (kind c))
                 | vkEndCommandBuffer cb _ => Some (step_end cb)
                 | vkQueueSubmit q cbs fence _ => Some (step_submit q cbs fence)
                 | vkDeviceWaitIdle dev _ => Some (step_wait_idle dev)
                 | _ => None
                 end) t.

(** The device of [sample_env] with another answer for the
    protected-memory feature, for the memory types the source buffer may
    use, for the input file and for the encoder. *)
Definition sample_env_with (protectedMemory src_bits : Z)
    (file : string -> GdkPixbuf + string) (save : option string) : environment :=
  {| env_result := env_result sample_env;
     env_instance := env_instance sample_env;
     env_enumerate_result := env_enumerate_result sample_env;
     env_physical_device_count := env_physical_device_count sample_env;
     env_physical_device := env_physical_device sample_env;
     env_protectedMemory := protectedMemory;
     env_vendorID := env_vendorID sample_env;
     env_deviceName := env_deviceName sample_env;
     env_memory_properties := env_memory_properties sample_env;
     env_queue_family_count := env_queue_family_count sample_env;
     env_queueFlags := env_queueFlags sample_env;
     env_device := env_device sample_env;
     env_queue := env_queue sample_env;
     env_pixbuf_new_from_file := file;
     env_src_buffer := env_src_buffer sample_env;
     env_src_requirements :=
       {| req_size := 8; req_alignment := 64; memoryTypeBits := src_bits |};
     env_src_mem := env_src_mem sample_env;
     env_src_map := env_src_map sample_env;
     env_dst_image := env_dst_image sample_env;
     env_image_requirements := env_image_requirements sample_env;
     env_dst_image_mem := env_dst_image_mem sample_env;
     env_dst_buffer := env_dst_buffer sample_env;
     env_dst_requirements := env_dst_requirements sample_env;
     env_dst_mem := env_dst_mem sample_env;
     env_dst_mapped := env_dst_mapped sample_env;
     env_cmd_pool := env_cmd_pool sample_env;
     env_cmd_buffer := env_cmd_buffer sample_env;
     env_pixbuf_save := save |}.

(** A 1x1 pixbuf without alpha channel: three bytes, row stride 4. *)
Definition grey_rgb : GdkPixbuf :=
  {| pb_colorspace := GDK_COLORSPACE_RGB; pb_has_alpha := false;
     pb_bits_per_sample := 8; pb_width := 1; pb_height := 1; pb_rowstride := 4;
     pb_pixels := [Byte.x80; Byte.x80; Byte.x80] |}.

(** The files a run asks the decoder to read, and the files and formats
    it asks the encoder to write, in order. *)
Definition decoded_files (t : list event) : list string :=
  omap (fun e => match e with
                 | gdk_pixbuf_new_from_file f => Some f
                 | _ => None
                 end) t.

Definition save_targets (t : list event) : list (string * string) :=
  omap (fun e => match e with
                 | gdk_pixbuf_save _ f ty _ => Some (f, ty)
                 | _ => None
                 end) t.

(** The test of the loop body at index [j]: bit [j] of the mask is set
    and entry [j] shares a bit with the wanted flags. *)
Definition accepts (mp : VkPhysicalDeviceMemoryProperties) (allowed flags j : Z)
    : Prop :=
  Z.testbit allowed j = true
  /\ exists ty, memoryTypes mp !! Z.to_nat j = Some ty
       /\ nonzero (Z.land (propertyFlags ty) flags) = true.

(** * Properties *)

(** ** The scan *)

Arguments Z.shiftl : simpl never.

Lemma shl1u_Some i bit : shl1u i = Some bit -> i < 32 /\ bit = Z.shiftl 1 i.
Proof.
  unfold shl1u. destruct (Z.ltb_spec i 32); intros E; inversion E; auto.
Qed.

Lemma land_bit_testbit a i :
  0 <= i -> nonzero (Z.land a (Z.shiftl 1 i)) = true -> Z.testbit a i = true.
Proof.
  intros Hi Hnz. destruct (Z.testbit a i) eqn:Hb; [reflexivity | exfalso].
  unfold nonzero in Hnz. apply negb_true_iff, Z.eqb_neq in Hnz. apply Hnz.
  apply Z.bits_inj'. intros n Hn.
  rewrite Z.land_spec, Z.bits_0, Z.shiftl_1_l, Z.pow2_bits_eqb by lia.
  destruct (Z.eqb_spec i n) as [-> | _].
  - rewrite Hb. reflexivity.
  - apply andb_false_r.
Qed.

(** The loop cannot run out of fuel when the fuel covers the indices up
    to 32. *)
Lemma find_image_memory_loop_fuel mp allowed flags fuel i :
  i <= 32 -> 33 <= i + Z.of_nat fuel ->
  snd (find_image_memory_loop mp allowed flags fuel i) <> OutOfFuel.
Proof.
  revert i. induction fuel as [| fuel IH]; intros i Hi Hf; [lia |].
  cbn [find_image_memory_loop]. unfold shl1u.
  destruct (Z.ltb_spec i 32); [| cbn; congruence].
  destruct (_ && _); [| cbn; congruence].
  assert (Hrec : snd (find_image_memory_loop mp allowed flags fuel (i + 1))
                 <> OutOfFuel) by (apply IH; lia).
  destruct (nonzero _); [| exact Hrec].
  destruct (_ !! _); [| cbn; congruence].
  destruct (nonzero _); [cbn; congruence |].
  destruct (find_image_memory_loop _ _ _ _ _). exact Hrec.
Qed.

(** What a returned index satisfies, and where the table is read. *)
Lemma find_image_memory_loop_spec mp allowed flags fuel i reads r :
  0 <= i ->
  find_image_memory_loop mp allowed flags fuel i = (reads, Ret r) ->
  Forall (fun j => i <= j <= memoryTypeCount mp /\ j < 32) reads
  /\ (r = -1
      \/ (i <= r /\ r < 32 /\ r <= memoryTypeCount mp
          /\ Z.testbit allowed r = true
          /\ exists ty, memoryTypes mp !! Z.to_nat r = Some ty
               /\ nonzero (Z.land (propertyFlags ty) flags) = true)).
Proof.
  revert i reads. induction fuel as [| fuel IH]; intros i reads Hi;
    cbn [find_image_memory_loop]; [congruence |].
  destruct (shl1u i) as [bit |] eqn:Hs; [| congruence].
  apply shl1u_Some in Hs as [Hlt ->].
  destruct (_ && _) eqn:Hc.
  2: { intros E. inversion E; subst. split; [constructor | left; reflexivity]. }
  apply andb_true_iff in Hc as [_ Hcount%Z.leb_le].
  assert (Hweak : forall reads' : list Z,
    Forall (fun j => i + 1 <= j <= memoryTypeCount mp /\ j < 32) reads' ->
    Forall (fun j => i <= j <= memoryTypeCount mp /\ j < 32) reads').
  { intros reads' HF. eapply Forall_impl; [exact HF |]. cbn. intros j ?. lia. }
  assert (Hval : forall r',
    (r' = -1
     \/ (i + 1 <= r' /\ r' < 32 /\ r' <= memoryTypeCount mp
         /\ Z.testbit allowed r' = true
         /\ exists ty, memoryTypes mp !! Z.to_nat r' = Some ty
              /\ nonzero (Z.land (propertyFlags ty) flags) = true)) ->
    (r' = -1
     \/ (i <= r' /\ r' < 32 /\ r' <= memoryTypeCount mp
         /\ Z.testbit allowed r' = true
         /\ exists ty, memoryTypes mp !! Z.to_nat r' = Some ty
              /\ nonzero (Z.land (propertyFlags ty) flags) = true))).
  { intros r' [-> | (? & ? & ? & ? & ?)]; [left; reflexivity | right].
    repeat split; auto; lia. }
  destruct (nonzero (Z.land allowed _)) eqn:Hbit.
  - destruct (memoryTypes mp !! Z.to_nat i) as [ty |] eqn:Hty; [| congruence].
    destruct (nonzero (Z.land (propertyFlags ty) flags)) eqn:Hfl.
    + intros E. inversion E; subst. split.
      * repeat constructor; lia.
      * right. repeat split; try lia.
        -- apply land_bit_testbit; [lia | exact Hbit].
        -- exists ty. auto.
    + destruct (find_image_memory_loop mp allowed flags fuel (i + 1))
        as [reads' r'] eqn:Hrec.
      intros E. inversion E; subst.
      destruct (IH (i + 1) reads' ltac:(lia) Hrec) as [Hr Hv].
      split; [constructor; [lia | auto] | auto].
  - intros Hrec. destruct (IH (i + 1) reads ltac:(lia) Hrec) as [Hr Hv].
    split; auto.
Qed.

(** [find_image_memory] is the second component of the scan from index 0,
    [find_image_memory_reads] the first. *)
Lemma find_image_memory_eq vc allowed host protected :
  find_image_memory vc allowed host protected
  = snd (find_image_memory_loop (memory_properties vc) allowed
           (wanted_flags host protected) find_image_memory_fuel 0).
Proof. reflexivity. Qed.

Lemma find_image_memory_reads_eq vc allowed host protected :
  find_image_memory_reads vc allowed host protected
  = fst (find_image_memory_loop (memory_properties vc) allowed
           (wanted_flags host protected) find_image_memory_fuel 0).
Proof. reflexivity. Qed.

(** [find_image_memory] always ends: with an index, with -1, or in the
    undefined shift by 32. *)
Lemma find_image_memory_ends vc allowed host protected :
  find_image_memory vc allowed host protected <> OutOfFuel.
Proof.
  rewrite find_image_memory_eq.
  apply find_image_memory_loop_fuel; unfold find_image_memory_fuel; lia.
Qed.

(** With an empty mask the loop test fails at once. *)
Lemma find_image_memory_empty_mask vc host protected :
  find_image_memory vc 0 host protected = Ret (-1).
Proof. reflexivity. Qed.

(** Every table read of the scan is at an index no larger than
    [memoryTypeCount] and inside the 32-slot array. *)
Lemma find_image_memory_loop_reads mp allowed flags fuel i :
  0 <= i ->
  Forall (fun j => i <= j <= memoryTypeCount mp /\ j < 32)
         (fst (find_image_memory_loop mp allowed flags fuel i)).
Proof.
  revert i. induction fuel as [| fuel IH]; intros i Hi;
    cbn [find_image_memory_loop]; [constructor |].
  destruct (shl1u i) as [bit |] eqn:Hs; [| constructor].
  apply shl1u_Some in Hs as [Hlt ->].
  destruct (_ && _) eqn:Hc; [| constructor].
  apply andb_true_iff in Hc as [_ Hcount%Z.leb_le].
  assert (Hrec : Forall (fun j => i <= j <= memoryTypeCount mp /\ j < 32)
                   (fst (find_image_memory_loop mp allowed flags fuel (i + 1)))).
  { eapply Forall_impl; [apply (IH (i + 1)); lia |]. cbn. intros j ?. lia. }
  destruct (nonzero (Z.land allowed _)); [| exact Hrec].
  destruct (memoryTypes mp !! Z.to_nat i) as [ty |]; [| repeat constructor; lia].
  destruct (nonzero (Z.land (propertyFlags ty) flags)); [repeat constructor; lia |].
  destruct (find_image_memory_loop mp allowed flags fuel (i + 1)).
  constructor; [lia | exact Hrec].
Qed.

Lemma find_image_memory_reads_bound vc allowed host protected :
  Forall (fun j => 0 <= j <= memoryTypeCount (memory_properties vc) /\ j < 32)
         (find_image_memory_reads vc allowed host protected).
Proof.
  rewrite find_image_memory_reads_eq. apply find_image_memory_loop_reads. lia.
Qed.

(** C10: an index returned by [find_image_memory] has its bit set in the
    allowed mask, and with the mask 0 the function returns -1 for every
    table and every request pair. *)
Theorem find_image_memory_allowed_bit (vc : data) (allowed : Z)
    (host protected : bool) :
  (forall i, find_image_memory vc allowed host protected = Ret i ->
             0 <= i -> Z.testbit allowed i = true)
  /\ find_image_memory vc 0 host protected = Ret (-1).
Proof.
  split; [| apply find_image_memory_empty_mask].
  intros i Hret Hi. rewrite find_image_memory_eq in Hret.
  destruct (find_image_memory_loop _ _ _ _ _) as [reads r] eqn:Hloop.
  cbn [snd] in Hret. subst r.
  apply find_image_memory_loop_spec in Hloop as [_ [-> | Hv]]; [lia | | lia].
  tauto.
Qed.

Lemma find_image_memory_allowed_bit_witness :
  find_image_memory (with_table (table_of 2 [15; 33])) 2 false true = Ret 1
  /\ Z.testbit 2 1 = true.
Proof.
  split; [vm_compute; reflexivity |].
  apply (proj1 (find_image_memory_allowed_bit
                  (with_table (table_of 2 [15; 33])) 2 false true) 1);
    [vm_compute; reflexivity | lia].
Defined.

(** C2: on a table whose entry 0 is device-local only and whose entry 1
    is device-local and host-visible, a request for host-visible memory
    gets index 0 from [find_image_memory]; the lowest entry with all the
    requested flags is entry 1.  On the table with entry 0 alone no entry
    has all the requested flags, and [find_image_memory] still returns 0,
    not -1. *)
Theorem find_image_memory_accepts_any_flag :
  find_image_memory (with_table (table_of 2 [1; 7])) 3 true false = Ret 0
  /\ select_memory_type (table_of 2 [1; 7]) 3 true false = 1
  /\ eligible 3 true false 0 {| propertyFlags := 1; heapIndex := 0 |} = false
  /\ find_image_memory (with_table (table_of 1 [1])) 1 true false = Ret 0
  /\ select_memory_type (table_of 1 [1]) 1 true false = -1.
Proof. repeat split; vm_compute; reflexivity. Qed.

(** C9: with one entry in the table and bit 1 set in the mask, the scan
    reads [memoryTypes[1]]: an index equal to [memoryTypeCount]. *)
Theorem find_image_memory_reads_past_table :
  find_image_memory_reads (with_table (table_of 1 [1])) 2 true false = [1]
  /\ memoryTypeCount (memory_properties (with_table (table_of 1 [1]))) = 1
  /\ ~ Forall (fun j => j < memoryTypeCount (memory_properties (with_table (table_of 1 [1]))))
         (find_image_memory_reads (with_table (table_of 1 [1])) 2 true false).
Proof.
  split; [vm_compute; reflexivity |]. split; [reflexivity |].
  replace (find_image_memory_reads (with_table (table_of 1 [1])) 2 true false)
    with [1] by (vm_compute; reflexivity).
  intros H. apply Forall_cons in H as [H _]. cbn in H. lia.
Qed.

(** ** Running [main] *)

Arguments find_image_memory : simpl never.
Arguments uint32 : simpl never.
Arguments int32 : simpl never.
Arguments arg : simpl never.

(** The scan looks at the table only. *)
Lemma find_image_memory_table vc vc' allowed host protected :
  memory_properties vc = memory_properties vc' ->
  find_image_memory vc allowed host protected
  = find_image_memory vc' allowed host protected.
Proof. intros E. rewrite !find_image_memory_eq, E. reflexivity. Qed.

(** From here on the scan is used through its lemmas only. *)
Opaque find_image_memory.

Ltac classify env :=
  repeat match goal with
  | |- context [find_image_memory ?vc ?a ?h ?p] =>
    lazymatch vc with
    | with_table _ => fail
    | _ =>
      rewrite (find_image_memory_table vc (with_table (env_memory_properties env)) a h p)
        by reflexivity
    end
  end.

(** Case analysis along the control flow of [main]: one goal for each
    place where the run can stop, and one for the run that returns.  In
    each the trace and the final status of [main env argv] are replaced by
    what that path produces. *)
Ltac run_main env argv :=
  let t := fresh "t" in
  let s := fresh "s" in
  destruct (main env argv) as [t s] eqn:Hmain;
  unfold trace, final; cbn [fst snd];
  revert Hmain; unfold main;
  destruct (Z.of_nat (length argv) <? 3) eqn:Hargc;
  [ | unfold init_vk;
      destruct ((env_enumerate_result env =? VK_SUCCESS)
                && (0 <? env_physical_device_count env)) eqn:Henum;
      [ destruct (nonzero (env_protectedMemory env)) eqn:Hprot;
        [ destruct (0 <? env_queue_family_count env) eqn:Hq;
          [ destruct (nonzero (Z.land (env_queueFlags env) VK_QUEUE_GRAPHICS_BIT))
              eqn:Hg;
            [ unfold init_image; cbn;
              destruct (env_pixbuf_new_from_file env (arg argv 1))
                as [pixbuf | msg] eqn:Hload;
              [ classify env;
                destruct (find_image_memory (with_table (env_memory_properties env))
                            (memoryTypeBits (env_src_requirements env)) true false)
                  as [k1 | |] eqn:Hsrc;
                [ destruct (find_image_memory (with_table (env_memory_properties env))
                              (memoryTypeBits (env_image_requirements env)) false true)
                    as [k2 | |] eqn:Himg;
                  [ destruct (find_image_memory (with_table (env_memory_properties env))
                                (memoryTypeBits (env_dst_requirements env)) true false)
                      as [k3 | |] eqn:Hdst;
                    [ unfold write_image_output;
                      destruct (env_pixbuf_save env) as [err |] eqn:Hsave
                    | | ]
                  | | ]
                | | ]
              | ]
            | ]
          | ]
        | ]
      | ] ];
  cbn; intros Hmain; injection Hmain as <- <-.

(** The run returns 0 when the start-up checks pass, the three scans
    return, and the image is saved. *)
Lemma main_completes env argv i1 i2 i3 :
  startup_checks env argv = true ->
  find_image_memory (with_table (env_memory_properties env))
    (memoryTypeBits (env_src_requirements env)) true false = Ret i1 ->
  find_image_memory (with_table (env_memory_properties env))
    (memoryTypeBits (env_image_requirements env)) false true = Ret i2 ->
  find_image_memory (with_table (env_memory_properties env))
    (memoryTypeBits (env_dst_requirements env)) true false = Ret i3 ->
  env_pixbuf_save env = None ->
  final (main env argv) = Done 0.
Proof.
  unfold startup_checks. intros Hc H1 H2 H3 Hs.
  apply andb_true_iff in Hc as [Hc Hfile].
  apply andb_true_iff in Hc as [Hc Hgraphics].
  apply andb_true_iff in Hc as [Hc Hfamilies].
  apply andb_true_iff in Hc as [Hc Hfeature].
  apply andb_true_iff in Hc as [Hc Hdevices].
  apply andb_true_iff in Hc as [Hc Hres].
  apply Z.leb_le in Hc.
  run_main env argv; try reflexivity; try congruence.
  - apply Z.ltb_lt in Hargc. lia.
  - rewrite Hres, Hdevices in Henum. discriminate.
Qed.

(** C5: with fewer than two arguments after the program name, [main]
    logs the usage error, which goes to standard error, and aborts; no
    call into Vulkan or GdkPixbuf is made. *)
Theorem usage_error (env : environment) (argv : list string) :
  (length argv < 3)%nat ->
  main env argv
  = ([g_log G_LOG_LEVEL_ERROR "Require 2 arguments : input_file output_file" []],
     Aborted)
  /\ Forall (fun e => written_to_stderr e = true) (trace (main env argv))
  /\ exits_nonzero (final (main env argv))
  /\ Forall (fun e => is_library_call e = false) (trace (main env argv)).
Proof.
  intros Hlen. unfold main.
  replace (Z.of_nat (length argv) <? 3) with true
    by (symmetry; apply Z.ltb_lt; lia).
  cbn. repeat split; repeat constructor.
Qed.

Lemma usage_error_witness :
  final (main sample_env ["blit-protected"; "in.png"]%string) = Aborted.
Proof.
  rewrite (proj1 (usage_error sample_env ["blit-protected"; "in.png"]%string
                    ltac:(cbn; lia))).
  reflexivity.
Defined.

(** ** The recorded commands *)

(** C3: a run that returns has recorded barrier, buffer-to-image copy,
    barrier, image-to-buffer copy: two barriers and two copies.  The
    barriers move the protected image from undefined to
    transfer-destination and from transfer-destination to
    transfer-source; the image goes through these layouts once each and
    never returns to one. *)
Theorem barrier_copy_barrier_copy (env : environment) (argv : list string) (r : Z) :
  final (main env argv) = Done r ->
  let cs := recorded_commands (env_cmd_buffer env) (trace (main env argv)) in
  map kind cs = [Barrier; BufferToImage; Barrier; ImageToBuffer]
  /\ length (List.filter is_barrier cs) = 2%nat
  /\ length (List.filter is_copy cs) = 2%nat
  /\ map (transitions_of (env_dst_image env)) cs
     = [ [(VK_IMAGE_LAYOUT_UNDEFINED, VK_IMAGE_LAYOUT_TRANSFER_DST_OPTIMAL)]; [];
         [(VK_IMAGE_LAYOUT_TRANSFER_DST_OPTIMAL, VK_IMAGE_LAYOUT_TRANSFER_SRC_OPTIMAL)];
         [] ]
  /\ layout_history VK_IMAGE_LAYOUT_UNDEFINED (env_dst_image env) cs
     = [VK_IMAGE_LAYOUT_UNDEFINED; VK_IMAGE_LAYOUT_TRANSFER_DST_OPTIMAL;
        VK_IMAGE_LAYOUT_TRANSFER_SRC_OPTIMAL]
  /\ NoDup (image_transitions (env_dst_image env) cs)
  /\ NoDup (layout_history VK_IMAGE_LAYOUT_UNDEFINED (env_dst_image env) cs).
Proof.
  intros Hdone cs. subst cs. revert Hdone.
  run_main env argv; try discriminate. intros _.
  unfold layout_history, image_transitions.
  repeat (cbn; rewrite !Z.eqb_refl). cbn.
  repeat split; try reflexivity.
  - apply (bool_decide_unpack _). vm_compute. exact I.
  - apply (bool_decide_unpack _). vm_compute. exact I.
Qed.

Lemma barrier_copy_barrier_copy_witness :
  map kind (recorded_commands (env_cmd_buffer sample_env)
              (trace (main sample_env sample_argv)))
  = [Barrier; BufferToImage; Barrier; ImageToBuffer].
Proof.
  apply (barrier_copy_barrier_copy sample_env sample_argv 0).
  vm_compute. reflexivity.
Defined.

(** C6: both copies have one region: buffer offset 0, row length and
    image height the width and height of the decoded input, image offset
    0 and extent width x height x 1; the two regions are equal. *)
Theorem copies_cover_image (env : environment) (argv : list string) (r : Z)
    (input : GdkPixbuf) :
  final (main env argv) = Done r ->
  env_pixbuf_new_from_file env (arg argv 1) = inl input ->
  let region :=
    {| bufferOffset := 0;
       bufferRowLength := uint32 (gdk_pixbuf_get_width input);
       bufferImageHeight := uint32 (gdk_pixbuf_get_height input);
       imageSubresource := color_layers;
       imageOffset := {| offset_x := 0; offset_y := 0; offset_z := 0 |};
       imageExtent := {| extent_width := uint32 (gdk_pixbuf_get_width input);
                         extent_height := uint32 (gdk_pixbuf_get_height input);
                         extent_depth := 1 |} |} in
  copy_regions (recorded_commands (env_cmd_buffer env) (trace (main env argv)))
  = [[region]; [region]].
Proof.
  intros Hdone Hin region. subst region. revert Hdone.
  run_main env argv; try discriminate. intros _.
  repeat (cbn; rewrite !Z.eqb_refl). cbn. congruence.
Qed.

Lemma copies_cover_image_witness :
  copy_regions (recorded_commands (env_cmd_buffer sample_env)
                  (trace (main sample_env sample_argv)))
  = [ [ {| bufferOffset := 0; bufferRowLength := 2; bufferImageHeight := 1;
           imageSubresource := color_layers;
           imageOffset := {| offset_x := 0; offset_y := 0; offset_z := 0 |};
           imageExtent := {| extent_width := 2; extent_height := 1;
                             extent_depth := 1 |} |} ];
      [ {| bufferOffset := 0; bufferRowLength := 2; bufferImageHeight := 1;
           imageSubresource := color_layers;
           imageOffset := {| offset_x := 0; offset_y := 0; offset_z := 0 |};
           imageExtent := {| extent_width := 2; extent_height := 1;
                             extent_depth := 1 |} |} ] ].
Proof.
  apply (copies_cover_image sample_env sample_argv 0 red_green);
    vm_compute; reflexivity.
Defined.

(** ** The three resources *)

(** C7: a run that returns has built the source buffer, the protected
    image and the destination buffer in this order, each by create, query
    of the memory requirements, allocation of the required size with the
    memory type found by [find_image_memory] (host-visible and unprotected
    for the two buffers, protected and not host-visible for the image),
    and bind at offset 0. *)
Theorem resources_built_in_order (env : environment) (argv : list string) (r : Z)
    (input : GdkPixbuf) :
  final (main env argv) = Done r ->
  env_pixbuf_new_from_file env (arg argv 1) = inl input ->
  let vc := with_table (env_memory_properties env) in
  let dev := env_device env in
  let sz := uint32 (gdk_pixbuf_get_byte_length input) in
  exists i1 i2 i3,
    find_image_memory vc (memoryTypeBits (env_src_requirements env)) true false
      = Ret i1
    /\ find_image_memory vc (memoryTypeBits (env_image_requirements env)) false true
      = Ret i2
    /\ find_image_memory vc (memoryTypeBits (env_dst_requirements env)) true false
      = Ret i3
    /\ List.filter is_resource_call (trace (main env argv))
       = [ vkCreateBuffer dev
             {| buffer_flags := 0; buffer_size := sz;
                buffer_usage := VK_BUFFER_USAGE_TRANSFER_SRC_BIT;
                buffer_sharingMode := VK_SHARING_MODE_EXCLUSIVE |}
             (env_result env at_vkCreateBuffer_src);
           vkGetBufferMemoryRequirements dev (env_src_buffer env);
           vkAllocateMemory dev
             {| allocationSize := req_size (env_src_requirements env);
                memoryTypeIndex := uint32 i1 |}
             (env_result env at_vkAllocateMemory_src);
           vkBindBufferMemory dev (env_src_buffer env) (env_src_mem env) 0
             (env_result env at_vkBindBufferMemory_src);
           vkCreateImage dev
             {| imageType := VK_IMAGE_TYPE_2D;
                format := VK_FORMAT_R8G8B8A8_UNORM;
                extent := {| extent_width := uint32 (gdk_pixbuf_get_width input);
                             extent_height := uint32 (gdk_pixbuf_get_height input);
                             extent_depth := 1 |};
                mipLevels := 1; arrayLayers := 1; samples := 1;
                tiling := VK_IMAGE_TILING_OPTIMAL;
                image_usage := Z.lor VK_IMAGE_USAGE_TRANSFER_SRC_BIT
                                     VK_IMAGE_USAGE_TRANSFER_DST_BIT;
                image_flags := VK_IMAGE_CREATE_PROTECTED_BIT |}
             (env_result env at_vkCreateImage);
           vkGetImageMemoryRequirements dev (env_dst_image env);
           vkAllocateMemory dev
             {| allocationSize := req_size (env_image_requirements env);
                memoryTypeIndex := uint32 i2 |}
             (env_result env at_vkAllocateMemory_image);
           vkBindImageMemory dev (env_dst_image env) (env_dst_image_mem env) 0
             (env_result env at_vkBindImageMemory);
           vkCreateBuffer dev
             {| buffer_flags := 0; buffer_size := sz;
                buffer_usage := VK_BUFFER_USAGE_TRANSFER_DST_BIT;
                buffer_sharingMode := VK_SHARING_MODE_EXCLUSIVE |}
             (env_result env at_vkCreateBuffer_dst);
           vkGetBufferMemoryRequirements dev (env_dst_buffer env);
           vkAllocateMemory dev
             {| allocationSize := req_size (env_dst_requirements env);
                memoryTypeIndex := uint32 i3 |}
             (env_result env at_vkAllocateMemory_dst);
           vkBindBufferMemory dev (env_dst_buffer env) (env_dst_mem env) 0
             (env_result env at_vkBindBufferMemory_dst) ].
Proof.
  intros Hdone Hin vc dev sz. subst vc dev sz. revert Hdone.
  run_main env argv; try discriminate. intros _.
  exists k1, k2, k3. repeat split; try reflexivity.
  assert (pixbuf = input) as -> by congruence. reflexivity.
Qed.

Lemma resources_built_in_order_witness :
  exists i1 i2 i3,
    find_image_memory (with_table (env_memory_properties sample_env)) 1 true false
      = Ret i1
    /\ find_image_memory (with_table (env_memory_properties sample_env)) 2 false true
      = Ret i2
    /\ find_image_memory (with_table (env_memory_properties sample_env)) 1 true false
      = Ret i3
    /\ length (List.filter is_resource_call
                 (trace (main sample_env sample_argv))) = 12%nat.
Proof.
  assert (Hdone : final (main sample_env sample_argv) = Done 0)
    by (vm_compute; reflexivity).
  assert (Hin : env_pixbuf_new_from_file sample_env (arg sample_argv 1) = inl red_green)
    by (vm_compute; reflexivity).
  destruct (resources_built_in_order sample_env sample_argv 0 red_green Hdone Hin)
    as (i1 & i2 & i3 & H1 & H2 & H3 & Hcalls).
  exists i1, i2, i3.
  split; [exact H1 | split; [exact H2 | split; [exact H3 |]]].
  rewrite Hcalls. reflexivity.
Defined.

(** ** Mappings *)

(** C4: in every run, the memory passed to [vkMapMemory] is the source
    buffer's before the submission and the destination buffer's after the
    idle wait, and nothing is mapped in between; so the memory of the
    protected image, an allocation of its own, is never mapped.  A run
    that returns has mapped exactly these two. *)
Theorem only_buffers_mapped (env : environment) (argv : list string) :
  let t := trace (main env argv) in
  (mapped_memory (before_submit t) = []
   \/ mapped_memory (before_submit t) = [env_src_mem env])
  /\ mapped_memory (submit_to_idle t) = []
  /\ (mapped_memory (after_idle t) = []
      \/ mapped_memory (after_idle t) = [env_dst_mem env])
  /\ (forall m, In m (mapped_memory t) -> m = env_src_mem env \/ m = env_dst_mem env)
  /\ (env_dst_image_mem env <> env_src_mem env ->
      env_dst_image_mem env <> env_dst_mem env ->
      ~ In (env_dst_image_mem env) (mapped_memory t))
  /\ (final (main env argv) = Done 0 ->
      mapped_memory t = [env_src_mem env; env_dst_mem env]).
Proof.
  intros t. subst t.
  run_main env argv; unfold before_submit, submit_to_idle, after_idle; cbn;
    (split; [auto |]); (split; [reflexivity |]); (split; [auto |]);
    (split; [intros m Hm; cbn in Hm; intuition congruence |]);
    (split; [intros ? ? Hm; cbn in Hm; intuition congruence |]);
    try discriminate; reflexivity.
Qed.

Lemma only_buffers_mapped_witness :
  ~ In (env_dst_image_mem sample_env)
       (mapped_memory (trace (main sample_env sample_argv)))
  /\ mapped_memory (trace (main sample_env sample_argv))
     = [env_src_mem sample_env; env_dst_mem sample_env].
Proof.
  pose proof (only_buffers_mapped sample_env sample_argv) as H. cbv zeta in H.
  destruct H as (_ & _ & _ & _ & Himage & Hdone). split.
  - apply Himage; cbn; lia.
  - apply Hdone. vm_compute. reflexivity.
Defined.

(** ** The output file *)

(** C8, as the program has it: in every run nothing is saved before the
    submission or between the submission and the idle wait, and there is
    at most one submission; a run in which one of the start-up checks
    fails aborts without calling the encoder. *)
Theorem output_written_after_idle (env : environment) (argv : list string) :
  let t := trace (main env argv) in
  Forall (fun e => is_save e = false) (before_submit t)
  /\ Forall (fun e => is_save e = false) (submit_to_idle t)
  /\ (length (List.filter is_submit t) <= 1)%nat
  /\ (startup_checks env argv = false ->
      final (main env argv) = Aborted /\ Forall (fun e => is_save e = false) t).
Proof.
  intros t. subst t. unfold startup_checks.
  run_main env argv; unfold before_submit, submit_to_idle, after_idle; cbn;
    (split; [repeat constructor |]); (split; [repeat constructor |]);
    (split; [lia |]);
    intros Hc; (split; [try reflexivity | try (repeat constructor)]).
  all: try (apply Z.ltb_ge in Hargc; apply Z.leb_le in Hargc;
            rewrite Hargc in Hc; cbn in Hc).
  all: try rewrite Henum in Hc.
  all: try rewrite Hprot in Hc.
  all: try rewrite Hq in Hc.
  all: try rewrite Hg in Hc.
  all: try discriminate Hc.
Qed.

Lemma output_written_after_idle_witness :
  final (main sample_env ["blit-protected"; "missing.png"; "out.png"]%string)
  = Aborted.
Proof.
  apply (output_written_after_idle sample_env
           ["blit-protected"; "missing.png"; "out.png"]%string).
  vm_compute. reflexivity.
Defined.

(** C8, the part that fails: the device loses the submission,
    [vkQueueSubmit] returns an error, and the run goes on to the idle
    wait, saves a file and returns 0. *)
Lemma lost_submission_still_saves :
  ~ aborts_on_any_failure lost_env sample_argv.
Proof.
  intros H. destruct H as [Habort _].
  - apply Exists_exists.
    exists (vkQueueSubmit 4 [12] VK_NULL_HANDLE VK_ERROR_DEVICE_LOST). split.
    + apply list_elem_of_In. vm_compute. tauto.
    + reflexivity.
  - vm_compute in Habort. discriminate.
Qed.

(** ** The round trip *)

Lemma int32_uint32 z : 0 <= z < 2 ^ 31 -> int32 (uint32 z) = z.
Proof.
  intros Hz. unfold uint32, int32. rewrite Z.mod_small by lia.
  destruct (Z.ltb_spec z (2 ^ 31)); lia.
Qed.

Lemma uint32_small z : 0 <= z < 2 ^ 32 -> uint32 z = z.
Proof. intros Hz. unfold uint32. apply Z.mod_small. lia. Qed.




(** * More on the scan *)

Lemma testbit_above a e j : 0 <= a < 2 ^ e -> e <= j -> Z.testbit a j = false.
Proof.
  intros [Ha Hlt] Hj. destruct (Z.eq_dec a 0) as [-> | Hnz]; [apply Z.bits_0 |].
  assert (0 <= e).
  { destruct (Z.le_gt_cases 0 e); [assumption |].
    rewrite Z.pow_neg_r in Hlt by lia. lia. }
  apply Z.bits_above_log2; [lia |].
  assert (Z.log2 a < e) by (apply Z.log2_lt_pow2; lia). lia.
Qed.

Lemma testbit_pow2_le a j : 0 <= a -> 0 <= j -> Z.testbit a j = true -> 2 ^ j <= a.
Proof.
  intros Ha Hj Hb. destruct (Z.le_gt_cases (2 ^ j) a); [assumption |].
  rewrite (testbit_above a j j) in Hb by lia. discriminate.
Qed.

Lemma nonzero_land_bit a i :
  0 <= i -> Z.testbit a i = true -> nonzero (Z.land a (Z.shiftl 1 i)) = true.
Proof.
  intros Hi Hb. unfold nonzero. apply negb_true_iff, Z.eqb_neq. intros Hz.
  assert (Hc : Z.testbit (Z.land a (Z.shiftl 1 i)) i = true).
  { rewrite Z.land_spec, Hb, Z.shiftl_1_l, Z.pow2_bits_eqb, Z.eqb_refl by lia.
    reflexivity. }
  rewrite Hz, Z.bits_0 in Hc. discriminate.
Qed.

(** The loop from [i]: what it returns and what it passed over. *)
Lemma find_image_memory_loop_first mp allowed flags fuel i reads r :
  0 <= i ->
  find_image_memory_loop mp allowed flags fuel i = (reads, Ret r) ->
  Forall (fun j => Z.testbit allowed j = true) reads
  /\ ((r = -1
       /\ (0 <= allowed ->
           forall j, i <= j <= memoryTypeCount mp -> j < 32 ->
                     ~ accepts mp allowed flags j))
      \/ (i <= r /\ accepts mp allowed flags r
          /\ forall j, i <= j < r -> ~ accepts mp allowed flags j)).
Proof.
  revert i reads. induction fuel as [| fuel IH]; intros i reads Hi;
    cbn [find_image_memory_loop]; [congruence |].
  destruct (shl1u i) as [bit |] eqn:Hs; [| congruence].
  apply shl1u_Some in Hs as [Hlt ->].
  destruct (_ && _) eqn:Hc.
  2: { intros E. inversion E; subst. split; [constructor | left].
       split; [reflexivity |]. intros Ha j Hj Hj32 [Hb _].
       apply andb_false_iff in Hc as [Hc | Hc].
       - apply Z.leb_gt in Hc. rewrite Z.shiftl_1_l in Hc.
         rewrite (testbit_above allowed i j) in Hb by lia. discriminate.
       - apply Z.leb_gt in Hc. lia. }
  assert (Hstep : forall r',
    (r' = -1
     /\ (0 <= allowed ->
         forall j, i + 1 <= j <= memoryTypeCount mp -> j < 32 ->
                   ~ accepts mp allowed flags j))
    \/ (i + 1 <= r' /\ accepts mp allowed flags r'
        /\ forall j, i + 1 <= j < r' -> ~ accepts mp allowed flags j) ->
    ~ accepts mp allowed flags i ->
    (r' = -1
     /\ (0 <= allowed ->
         forall j, i <= j <= memoryTypeCount mp -> j < 32 ->
                   ~ accepts mp allowed flags j))
    \/ (i <= r' /\ accepts mp allowed flags r'
        /\ forall j, i <= j < r' -> ~ accepts mp allowed flags j)).
  { intros r' [[-> Hnone] | (Hle & Hacc & Hmin)] Hrej; [left | right].
    - split; [reflexivity |]. intros Ha j Hj Hj32.
      destruct (Z.eq_dec j i) as [-> | Hne]; [exact Hrej | apply Hnone; lia].
    - split; [lia |]. split; [exact Hacc |]. intros j Hj.
      destruct (Z.eq_dec j i) as [-> | Hne]; [exact Hrej | apply Hmin; lia]. }
  destruct (nonzero (Z.land allowed _)) eqn:Hbit.
  - assert (Hb : Z.testbit allowed i = true) by (apply land_bit_testbit; [lia | exact Hbit]).
    destruct (memoryTypes mp !! Z.to_nat i) as [ty |] eqn:Hty; [| congruence].
    destruct (nonzero (Z.land (propertyFlags ty) flags)) eqn:Hfl.
    + intros E. inversion E; subst. split; [repeat constructor; exact Hb | right].
      split; [lia |]. split; [split; [exact Hb | exists ty; auto] |].
      intros j Hj. lia.
    + destruct (find_image_memory_loop mp allowed flags fuel (i + 1))
        as [reads' r'] eqn:Hrec.
      intros E. inversion E; subst.
      destruct (IH (i + 1) reads' ltac:(lia) Hrec) as [Hr Hv].
      split; [constructor; [exact Hb | exact Hr] |].
      apply Hstep; [exact Hv |].
      intros [_ (ty' & Hty' & Hacc)]. congruence.
  - intros Hrec. destruct (IH (i + 1) reads ltac:(lia) Hrec) as [Hr Hv].
    split; [exact Hr |]. apply Hstep; [exact Hv |].
    intros [Hb _]. rewrite nonzero_land_bit in Hbit by (lia || exact Hb).
    discriminate.
Qed.

Lemma find_image_memory_loop_reads_mask mp allowed flags fuel i :
  0 <= i ->
  Forall (fun j => Z.testbit allowed j = true)
         (fst (find_image_memory_loop mp allowed flags fuel i)).
Proof.
  revert i. induction fuel as [| fuel IH]; intros i Hi;
    cbn [find_image_memory_loop]; [constructor |].
  destruct (shl1u i) as [bit |] eqn:Hs; [| constructor].
  apply shl1u_Some in Hs as [Hlt ->].
  destruct (_ && _); [| constructor].
  pose proof (IH (i + 1) ltac:(lia)) as Hrec.
  destruct (nonzero (Z.land allowed _)) eqn:Hbit; [| exact Hrec].
  assert (Hb : Z.testbit allowed i = true) by (apply land_bit_testbit; [lia | exact Hbit]).
  destruct (memoryTypes mp !! Z.to_nat i) as [ty |]; [| repeat constructor; exact Hb].
  destruct (nonzero (Z.land (propertyFlags ty) flags)); [repeat constructor; exact Hb |].
  destruct (find_image_memory_loop mp allowed flags fuel (i + 1)).
  constructor; [exact Hb | exact Hrec].
Qed.

(** If some index from [i] on passes the test, the loop returns one no
    larger. *)
Lemma find_image_memory_loop_finds mp allowed flags fuel i k :
  full_table mp -> 0 <= allowed ->
  0 <= i <= k -> k <= memoryTypeCount mp -> k < 32 ->
  33 <= i + Z.of_nat fuel ->
  accepts mp allowed flags k ->
  exists j, snd (find_image_memory_loop mp allowed flags fuel i) = Ret j
            /\ i <= j <= k.
Proof.
  intros Hfull Ha. revert i. induction fuel as [| fuel IH];
    intros i Hik Hk Hk32 Hfuel Hacc; [lia |].
  cbn [find_image_memory_loop]. unfold shl1u.
  destruct (Z.ltb_spec i 32); [| lia].
  destruct Hacc as [Hb (tk & Htk & Hfk)].
  assert (Hpow : Z.shiftl 1 i <= allowed).
  { rewrite Z.shiftl_1_l. pose proof (testbit_pow2_le allowed k Ha ltac:(lia) Hb).
    assert (2 ^ i <= 2 ^ k) by (apply Z.pow_le_mono_r; lia). lia. }
  replace (Z.shiftl 1 i <=? allowed) with true by (symmetry; apply Z.leb_le; exact Hpow).
  replace (i <=? memoryTypeCount mp) with true by (symmetry; apply Z.leb_le; lia).
  cbn [andb].
  assert (Hrec : i < k ->
    exists j, snd (find_image_memory_loop mp allowed flags fuel (i + 1)) = Ret j
              /\ i <= j <= k).
  { intros Hlt. destruct (IH (i + 1)) as (j & Hj & Hr); try lia.
    - split; [exact Hb | exists tk; auto].
    - exists j. split; [exact Hj | lia]. }
  destruct (nonzero (Z.land allowed (Z.shiftl 1 i))) eqn:Hbit.
  - destruct (memoryTypes mp !! Z.to_nat i) as [ty |] eqn:Hty.
    2: { apply lookup_ge_None in Hty. unfold full_table, VK_MAX_MEMORY_TYPES in Hfull. lia. }
    destruct (nonzero (Z.land (propertyFlags ty) flags)) eqn:Hfl.
    + exists i. split; [reflexivity | lia].
    + destruct (Z.eq_dec i k) as [-> | Hne]; [congruence |].
      destruct Hrec as (j & Hj & Hr); [lia |].
      destruct (find_image_memory_loop mp allowed flags fuel (i + 1)).
      exists j. auto.
  - destruct (Z.eq_dec i k) as [-> | Hne].
    + rewrite nonzero_land_bit in Hbit by (lia || exact Hb). discriminate.
    + apply Hrec. lia.
Qed.

(** With bit 31 clear in the mask, or fewer than 31 entries, the loop
    stops before the shift by 32. *)
Lemma find_image_memory_loop_defined mp allowed flags fuel i :
  full_table mp -> allowed < 2 ^ 31 \/ memoryTypeCount mp < 31 ->
  0 <= i <= 31 -> 32 <= i + Z.of_nat fuel ->
  exists r, snd (find_image_memory_loop mp allowed flags fuel i) = Ret r.
Proof.
  intros Hfull Hsmall. revert i. induction fuel as [| fuel IH];
    intros i Hi Hfuel; [lia |].
  cbn [find_image_memory_loop]. unfold shl1u.
  destruct (Z.ltb_spec i 32); [| lia].
  destruct (_ && _) eqn:Hc; [| exists (-1); reflexivity].
  apply andb_true_iff in Hc as [Hpow%Z.leb_le Hcount%Z.leb_le].
  rewrite Z.shiftl_1_l in Hpow.
  assert (Hlt : i < 31).
  { destruct (Z.eq_dec i 31) as [-> | Hne]; [| lia]. lia. }
  destruct (IH (i + 1)) as (r & Hr); try lia.
  destruct (nonzero (Z.land allowed _)); [| exists r; exact Hr].
  destruct (memoryTypes mp !! Z.to_nat i) as [ty |] eqn:Hty.
  2: { apply lookup_ge_None in Hty. unfold full_table, VK_MAX_MEMORY_TYPES in Hfull. lia. }
  destruct (nonzero (Z.land (propertyFlags ty) flags)); [exists i; reflexivity |].
  destruct (find_image_memory_loop mp allowed flags fuel (i + 1)).
  exists r. exact Hr.
Qed.

Lemma find_image_memory_reads_at_mask_bits_aux vc allowed host protected :
  Forall (fun j => Z.testbit allowed j = true
                   /\ 0 <= j <= memoryTypeCount (memory_properties vc) /\ j < 32)
         (find_image_memory_reads vc allowed host protected).
Proof.
  rewrite find_image_memory_reads_eq. apply Forall_and. split.
  - apply find_image_memory_loop_reads_mask. lia.
  - apply find_image_memory_loop_reads. lia.
Qed.

(** X1: an index returned by [find_image_memory] is at most
    [memoryTypeCount] and below 32, passes the test of the loop body, and
    no lower index passes it. *)
Theorem find_image_memory_first_match (vc : data) (allowed : Z)
    (host protected : bool) (i : Z) :
  find_image_memory vc allowed host protected = Ret i -> 0 <= i ->
  i <= memoryTypeCount (memory_properties vc) /\ i < 32
  /\ accepts (memory_properties vc) allowed (wanted_flags host protected) i
  /\ forall j, 0 <= j < i ->
       ~ accepts (memory_properties vc) allowed (wanted_flags host protected) j.
Proof.
  intros Hret Hi. rewrite find_image_memory_eq in Hret.
  destruct (find_image_memory_loop _ _ _ _ _) as [reads r] eqn:Hloop.
  cbn [snd] in Hret. subst r.
  pose proof (find_image_memory_loop_spec _ _ _ _ _ _ _ (Z.le_refl 0) Hloop)
    as [_ [-> | (_ & H32 & Hcount & _)]]; [lia |].
  pose proof (find_image_memory_loop_first _ _ _ _ _ _ _ (Z.le_refl 0) Hloop)
    as [_ [[-> _] | (_ & Hacc & Hmin)]]; [lia |].
  auto.
Qed.

Lemma find_image_memory_first_match_witness :
  accepts (table_of 2 [15; 33]) 3 (wanted_flags false true) 0.
Proof.
  apply (find_image_memory_first_match (with_table (table_of 2 [15; 33]))
           3 false true 0); [vm_compute; reflexivity | lia].
Defined.

(** X2: on a full table and with a non-negative mask, if some index up to
    [memoryTypeCount] passes the test of the loop body, [find_image_memory]
    returns an index, and one no larger than that. *)
Theorem find_image_memory_finds (vc : data) (allowed : Z)
    (host protected : bool) (k : Z) :
  full_table (memory_properties vc) -> 0 <= allowed ->
  0 <= k <= memoryTypeCount (memory_properties vc) -> k < 32 ->
  accepts (memory_properties vc) allowed (wanted_flags host protected) k ->
  exists j, find_image_memory vc allowed host protected = Ret j /\ 0 <= j <= k.
Proof.
  intros Hfull Ha Hk Hk32 Hacc. rewrite find_image_memory_eq.
  apply find_image_memory_loop_finds; auto; try lia.
  unfold find_image_memory_fuel. lia.
Qed.

Lemma find_image_memory_finds_witness :
  exists j, find_image_memory (with_table (table_of 2 [15; 33])) 2 false true = Ret j
            /\ 0 <= j <= 1.
Proof.
  apply (find_image_memory_finds (with_table (table_of 2 [15; 33])) 2 false true 1).
  - reflexivity.
  - lia.
  - cbn. lia.
  - lia.
  - split; [reflexivity |]. eexists. split; reflexivity.
Defined.

(** X3: when [find_image_memory] returns -1 for a non-negative mask, no
    index up to [memoryTypeCount] passes the test of the loop body. *)
Theorem find_image_memory_not_found (vc : data) (allowed : Z)
    (host protected : bool) :
  find_image_memory vc allowed host protected = Ret (-1) -> 0 <= allowed ->
  forall j, 0 <= j <= memoryTypeCount (memory_properties vc) -> j < 32 ->
    ~ accepts (memory_properties vc) allowed (wanted_flags host protected) j.
Proof.
  intros Hret Ha. rewrite find_image_memory_eq in Hret.
  destruct (find_image_memory_loop _ _ _ _ _) as [reads r] eqn:Hloop.
  cbn [snd] in Hret. subst r.
  pose proof (find_image_memory_loop_first _ _ _ _ _ _ _ (Z.le_refl 0) Hloop)
    as [_ [[_ Hnone] | (Hle & _)]]; [| lia].
  intros j Hj Hj32. apply Hnone; auto.
Qed.

Lemma find_image_memory_not_found_witness :
  ~ accepts (table_of 2 [2; 4]) 3 (wanted_flags false true) 1.
Proof.
  apply (find_image_memory_not_found (with_table (table_of 2 [2; 4])) 3 false true);
    [vm_compute; reflexivity | lia | cbn; lia | lia].
Defined.

Lemma find_image_memory_returns vc allowed host protected :
  full_table (memory_properties vc) ->
  allowed < 2 ^ 31 \/ memoryTypeCount (memory_properties vc) < 31 ->
  exists r, find_image_memory vc allowed host protected = Ret r /\ -1 <= r < 32.
Proof.
  intros Hfull Hsmall. rewrite find_image_memory_eq.
  destruct (find_image_memory_loop_defined (memory_properties vc) allowed
              (wanted_flags host protected) find_image_memory_fuel 0 Hfull Hsmall)
    as (r & Hr); [lia | unfold find_image_memory_fuel; lia |].
  exists r. split; [exact Hr |].
  destruct (find_image_memory_loop _ _ _ _ _) as [reads r'] eqn:Hloop.
  cbn [snd] in Hr. subst r'.
  pose proof (find_image_memory_loop_spec _ _ _ _ _ _ _ (Z.le_refl 0) Hloop)
    as [_ [-> | (? & ? & _)]]; lia.
Qed.

(** X4: on a full table, with bit 31 of the mask clear or fewer than 31
    memory types, [find_image_memory] returns: an index below 32, or
    -1.  It never gets to the shift by 32. *)
Theorem find_image_memory_defined (vc : data) (allowed : Z)
    (host protected : bool) :
  full_table (memory_properties vc) ->
  allowed < 2 ^ 31 \/ memoryTypeCount (memory_properties vc) < 31 ->
  exists r, find_image_memory vc allowed host protected = Ret r /\ -1 <= r < 32.
Proof. apply find_image_memory_returns. Qed.

Lemma find_image_memory_defined_witness :
  exists r, find_image_memory (with_table (table_of 32 [])) (2 ^ 31 - 1) true false
            = Ret r /\ -1 <= r < 32.
Proof.
  apply (find_image_memory_defined (with_table (table_of 32 [])) (2 ^ 31 - 1) true false).
  - reflexivity.
  - left. lia.
Defined.

(** X5: every table entry the scan reads is at an index whose bit is set
    in the mask, is at most [memoryTypeCount] and lies inside the 32-slot
    array. *)
Theorem find_image_memory_reads_at_mask_bits (vc : data) (allowed : Z)
    (host protected : bool) :
  Forall (fun j => Z.testbit allowed j = true
                   /\ 0 <= j <= memoryTypeCount (memory_properties vc) /\ j < 32)
         (find_image_memory_reads vc allowed host protected).
Proof.
  apply find_image_memory_reads_at_mask_bits_aux.
Qed.

(** X6: when the mask is non-negative and has no bit set at
    [memoryTypeCount] or above, every read of the scan is inside the
    table and a returned index is below [memoryTypeCount]. *)
Theorem find_image_memory_in_table (vc : data) (allowed : Z)
    (host protected : bool) :
  0 <= allowed < 2 ^ memoryTypeCount (memory_properties vc) ->
  Forall (fun j => 0 <= j < memoryTypeCount (memory_properties vc))
         (find_image_memory_reads vc allowed host protected)
  /\ forall i, find_image_memory vc allowed host protected = Ret i -> 0 <= i ->
       i < memoryTypeCount (memory_properties vc).
Proof.
  intros Ha.
  assert (Hbit : forall j, 0 <= j -> Z.testbit allowed j = true ->
                           j < memoryTypeCount (memory_properties vc)).
  { intros j Hj Hb.
    destruct (Z.lt_ge_cases j (memoryTypeCount (memory_properties vc)));
      [assumption |].
    rewrite (testbit_above allowed (memoryTypeCount (memory_properties vc)) j)
      in Hb by lia.
    discriminate. }
  split.
  - eapply Forall_impl; [apply find_image_memory_reads_at_mask_bits_aux |].
    cbn. intros j (Hb & Hj & _). split; [lia | apply Hbit; [lia | exact Hb]].
  - intros i Hret Hi. apply Hbit; [exact Hi |].
    rewrite find_image_memory_eq in Hret.
    destruct (find_image_memory_loop _ _ _ _ _) as [reads r] eqn:Hloop.
    cbn [snd] in Hret. subst r.
    pose proof (find_image_memory_loop_spec _ _ _ _ _ _ _ (Z.le_refl 0) Hloop)
      as [_ [-> | (_ & _ & _ & Hb & _)]]; [lia | exact Hb].
Qed.

Lemma find_image_memory_in_table_witness :
  Forall (fun j => 0 <= j < 2)
         (find_image_memory_reads (with_table (table_of 2 [15; 33])) 3 true false).
Proof.
  apply (find_image_memory_in_table (with_table (table_of 2 [15; 33])) 3 true false).
  cbn. lia.
Defined.

Lemma wanted_flags_device_local host protected :
  Z.testbit (wanted_flags host protected) 0 = true.
Proof. destruct host, protected; reflexivity. Qed.

(** X7: a device-local entry whose bit is set in the mask passes the test
    whatever is requested: on a full table [find_image_memory] then
    returns an index no larger, for every choice of [host] and
    [protected]. *)
Theorem find_image_memory_device_local (vc : data) (allowed : Z)
    (host protected : bool) (k : Z) (ty : VkMemoryType) :
  full_table (memory_properties vc) -> 0 <= allowed ->
  0 <= k <= memoryTypeCount (memory_properties vc) -> k < 32 ->
  Z.testbit allowed k = true ->
  memoryTypes (memory_properties vc) !! Z.to_nat k = Some ty ->
  includes (propertyFlags ty) VK_MEMORY_PROPERTY_DEVICE_LOCAL_BIT = true ->
  exists j, find_image_memory vc allowed host protected = Ret j /\ 0 <= j <= k.
Proof.
  intros Hfull Ha Hk Hk32 Hb Hty Hdl. rewrite find_image_memory_eq.
  apply find_image_memory_loop_finds; auto; try lia.
  { unfold find_image_memory_fuel. lia. }
  split; [exact Hb |]. exists ty. split; [exact Hty |].
  unfold nonzero. apply negb_true_iff, Z.eqb_neq. intros Hz.
  assert (Hc : Z.testbit (Z.land (propertyFlags ty) (wanted_flags host protected)) 0 = true).
  { rewrite Z.land_spec, wanted_flags_device_local, andb_true_r.
    unfold includes, VK_MEMORY_PROPERTY_DEVICE_LOCAL_BIT in Hdl.
    apply Z.eqb_eq in Hdl.
    assert (Hl : Z.testbit (Z.land (propertyFlags ty) 1) 0 = true)
      by (rewrite Hdl; reflexivity).
    rewrite Z.land_spec in Hl. apply andb_true_iff in Hl as [Hl _]. exact Hl. }
  rewrite Hz, Z.bits_0 in Hc. discriminate.
Qed.

Lemma find_image_memory_device_local_witness :
  exists j, find_image_memory (with_table (table_of 2 [1; 7])) 3 true true = Ret j
            /\ 0 <= j <= 0.
Proof.
  apply (find_image_memory_device_local (with_table (table_of 2 [1; 7])) 3 true true 0
           {| propertyFlags := 1; heapIndex := 0 |}).
  - reflexivity.
  - lia.
  - cbn. lia.
  - lia.
  - reflexivity.
  - reflexivity.
  - reflexivity.
Defined.

(** * More on the run *)

(** X8: [main] returns exactly when the start-up checks pass, each of the
    three scans returns, and the encoder saves the file; the value
    returned is then 0. *)
Theorem main_returns_iff (env : environment) (argv : list string) (r : Z) :
  final (main env argv) = Done r <->
  r = 0
  /\ startup_checks env argv = true
  /\ (exists i, find_image_memory (with_table (env_memory_properties env))
                  (memoryTypeBits (env_src_requirements env)) true false = Ret i)
  /\ (exists i, find_image_memory (with_table (env_memory_properties env))
                  (memoryTypeBits (env_image_requirements env)) false true = Ret i)
  /\ (exists i, find_image_memory (with_table (env_memory_properties env))
                  (memoryTypeBits (env_dst_requirements env)) true false = Ret i)
  /\ env_pixbuf_save env = None.
Proof.
  split.
  - run_main env argv; try discriminate. intros [= <-].
    apply Z.ltb_ge in Hargc. apply Z.leb_le in Hargc.
    apply andb_true_iff in Henum as [Hres Hcount].
    unfold startup_checks. rewrite Hargc, Hres, Hcount, Hprot, Hq, Hg, Hload.
    repeat split; eauto.
  - intros (-> & Hc & [i1 H1] & [i2 H2] & [i3 H3] & Hs).
    exact (main_completes env argv i1 i2 i3 Hc H1 H2 H3 Hs).
Qed.

Lemma main_returns_iff_witness :
  startup_checks sample_env sample_argv = true.
Proof.
  apply (proj1 (main_returns_iff sample_env sample_argv 0)).
  vm_compute. reflexivity.
Defined.

(** X9: when one of the four assertions of [init_vk] fails, the run
    aborts on the assertion message having called nothing but the
    instance and the physical device: no logical device is created and no
    file is opened. *)
Theorem init_vk_failure_aborts (env : environment) (argv : list string) :
  (3 <= length argv)%nat ->
  init_vk_checks env = false ->
  final (main env argv) = Aborted
  /\ Forall (fun e => instance_level e = true) (trace (main env argv))
  /\ exists expr, last (trace (main env argv)) = Some (g_assertion_message expr).
Proof.
  intros Hlen Hc. unfold init_vk_checks in Hc.
  run_main env argv;
    try (apply Z.ltb_lt in Hargc; lia);
    try (cbn in Hc; discriminate Hc);
    (split; [reflexivity |]; split; [repeat constructor | eexists; reflexivity]).
Qed.

Lemma init_vk_failure_aborts_witness :
  final (main (sample_env_with 0 1 (env_pixbuf_new_from_file sample_env) None)
              sample_argv) = Aborted.
Proof.
  apply (init_vk_failure_aborts
           (sample_env_with 0 1 (env_pixbuf_new_from_file sample_env) None)
           sample_argv); [cbn; lia | reflexivity].
Defined.

(** X10: an input that does not decode is found out only after the
    logical device and its queue exist: beyond the instance-level calls
    the run has created the device, fetched the queue and called the
    decoder, and it aborts on the decoder's message. *)
Theorem undecodable_input_aborts (env : environment) (argv : list string)
    (message : string) :
  (3 <= length argv)%nat ->
  init_vk_checks env = true ->
  env_pixbuf_new_from_file env (arg argv 1) = inr message ->
  final (main env argv) = Aborted
  /\ last (trace (main env argv)) = Some (g_log G_LOG_LEVEL_ERROR message [])
  /\ List.filter (fun e => negb (instance_level e)) (trace (main env argv))
     = [ vkCreateDevice (env_physical_device env)
           {| chains_protected_features := true;
              pQueueCreateInfos :=
                [ {| queueFamilyIndex := 0; queueCount := 1;
                     queue_flags := VK_DEVICE_QUEUE_CREATE_PROTECTED_BIT |} ];
              ppEnabledExtensionNames := [ VK_KHR_SWAPCHAIN_EXTENSION_NAME ] |}
           (env_result env at_vkCreateDevice);
         vkGetDeviceQueue (env_device env) 0 0;
         gdk_pixbuf_new_from_file (arg argv 1) ].
Proof.
  intros Hlen Hc Hin. unfold init_vk_checks in Hc.
  run_main env argv;
    try (apply Z.ltb_lt in Hargc; lia);
    try (cbn in Hc; discriminate Hc);
    try discriminate Hin.
  assert (msg = message) as -> by congruence.
  repeat (split; [reflexivity |]). reflexivity.
Qed.

Lemma undecodable_input_aborts_witness :
  final (main sample_env ["blit-protected"; "missing.png"; "out.png"]%string)
  = Aborted.
Proof.
  apply (undecodable_input_aborts sample_env
           ["blit-protected"; "missing.png"; "out.png"]%string "no such file");
    [cbn; lia | reflexivity | reflexivity].
Defined.

(** X11: when the encoder fails, the run aborts on the message
    "Could not write output file"; the encoder was called once, for
    [argv[2]], no file counts as written, and the destination memory,
    mapped for the call, is never unmapped. *)
Theorem save_failure_aborts (env : environment) (argv : list string)
    (i1 i2 i3 : Z) (message : string) :
  startup_checks env argv = true ->
  find_image_memory (with_table (env_memory_properties env))
    (memoryTypeBits (env_src_requirements env)) true false = Ret i1 ->
  find_image_memory (with_table (env_memory_properties env))
    (memoryTypeBits (env_image_requirements env)) false true = Ret i2 ->
  find_image_memory (with_table (env_memory_properties env))
    (memoryTypeBits (env_dst_requirements env)) true false = Ret i3 ->
  env_pixbuf_save env = Some message ->
  final (main env argv) = Aborted
  /\ last (trace (main env argv))
     = Some (g_log G_LOG_LEVEL_ERROR "Could not write output file: %s" [inr message])
  /\ written_files (trace (main env argv)) = []
  /\ save_targets (trace (main env argv)) = [(arg argv 2, "png"%string)]
  /\ mapped_memory (trace (main env argv)) = [env_src_mem env; env_dst_mem env]
  /\ unmapped_memory (trace (main env argv)) = [env_src_mem env].
Proof.
  unfold startup_checks. intros Hc H1 H2 H3 Hs.
  apply andb_true_iff in Hc as [Hc Hfile].
  apply andb_true_iff in Hc as [Hc Hgraphics].
  apply andb_true_iff in Hc as [Hc Hfamilies].
  apply andb_true_iff in Hc as [Hc Hfeature].
  apply andb_true_iff in Hc as [Hc Hdevices].
  apply andb_true_iff in Hc as [Hc Hres].
  apply Z.leb_le in Hc.
  run_main env argv; try congruence.
  - apply Z.ltb_lt in Hargc. lia.
  - assert (err = message) as -> by congruence.
    repeat (split; [reflexivity |]). reflexivity.
  - rewrite Hres, Hdevices in Henum. discriminate.
Qed.

Lemma save_failure_aborts_witness :
  unmapped_memory
    (trace (main (sample_env_with 1 1 (env_pixbuf_new_from_file sample_env)
                    (Some "disk full"%string)) sample_argv))
  = [6].
Proof.
  apply (save_failure_aborts
           (sample_env_with 1 1 (env_pixbuf_new_from_file sample_env)
              (Some "disk full"%string)) sample_argv 0 1 0 "disk full");
    vm_compute; reflexivity.
Defined.

(** X12: in a run that returns the host touches buffer memory in this
    order: map the source memory for [size] bytes, copy [size] bytes of
    the pixel data, unmap it; then, after the transfer, map the
    destination memory for [size] bytes, save a pixbuf wrapping the mapped
    bytes with the input's width, height and row stride, and unmap it.
    [size] is the byte length of the input reduced to 32 bits. *)
Theorem host_access_sequence (env : environment) (argv : list string) (r : Z)
    (input : GdkPixbuf) :
  final (main env argv) = Done r ->
  env_pixbuf_new_from_file env (arg argv 1) = inl input ->
  let sz := uint32 (gdk_pixbuf_get_byte_length input) in
  List.filter is_host_access (trace (main env argv))
  = [ vkMapMemory (env_device env) (env_src_mem env) 0 sz 0
        (env_result env at_vkMapMemory_src);
      memcpy (env_src_map env) (take (Z.to_nat sz) (gdk_pixbuf_read_pixels input));
      vkUnmapMemory (env_device env) (env_src_mem env);
      vkMapMemory (env_device env) (env_dst_mem env) 0 sz 0
        (env_result env at_vkMapMemory_dst);
      gdk_pixbuf_save
        (gdk_pixbuf_new_from_data (env_dst_mapped env) GDK_COLORSPACE_RGB true 8
           (int32 (uint32 (gdk_pixbuf_get_width input)))
           (int32 (uint32 (gdk_pixbuf_get_height input)))
           (int32 (uint32 (gdk_pixbuf_get_rowstride input))))
        (arg argv 2) "png" true;
      vkUnmapMemory (env_device env) (env_dst_mem env) ].
Proof.
  intros Hdone Hin sz. subst sz. revert Hdone.
  run_main env argv; try discriminate. intros _.
  assert (pixbuf = input) as -> by congruence. reflexivity.
Qed.

Lemma host_access_sequence_witness :
  length (List.filter is_host_access (trace (main sample_env sample_argv))) = 6%nat.
Proof.
  rewrite (host_access_sequence sample_env sample_argv 0 red_green);
    [reflexivity | vm_compute; reflexivity | vm_compute; reflexivity].
Defined.

(** X13: the result -1 of [find_image_memory] is not tested: in a run
    that returns, a scan that found nothing has its allocation requested
    with memory type index 4294967295. *)
Theorem not_found_is_passed_on (env : environment) (argv : list string) (r : Z) :
  final (main env argv) = Done r ->
  (find_image_memory (with_table (env_memory_properties env))
     (memoryTypeBits (env_src_requirements env)) true false = Ret (-1) ->
   allocations (trace (main env argv)) !! 0%nat
   = Some {| allocationSize := req_size (env_src_requirements env);
             memoryTypeIndex := 4294967295 |})
  /\ (find_image_memory (with_table (env_memory_properties env))
        (memoryTypeBits (env_image_requirements env)) false true = Ret (-1) ->
      allocations (trace (main env argv)) !! 1%nat
      = Some {| allocationSize := req_size (env_image_requirements env);
                memoryTypeIndex := 4294967295 |})
  /\ (find_image_memory (with_table (env_memory_properties env))
        (memoryTypeBits (env_dst_requirements env)) true false = Ret (-1) ->
      allocations (trace (main env argv)) !! 2%nat
      = Some {| allocationSize := req_size (env_dst_requirements env);
                memoryTypeIndex := 4294967295 |}).
Proof.
  run_main env argv; try discriminate. intros _.
  repeat split; intros [= ->]; reflexivity.
Qed.

Lemma not_found_is_passed_on_witness :
  allocations (trace (main (sample_env_with 1 0 (env_pixbuf_new_from_file sample_env) None)
                        sample_argv)) !! 0%nat
  = Some {| allocationSize := 8; memoryTypeIndex := 4294967295 |}.
Proof.
  apply (not_found_is_passed_on
           (sample_env_with 1 0 (env_pixbuf_new_from_file sample_env) None)
           sample_argv 0); vm_compute; reflexivity.
Defined.

(** X14: a run that returns begins the command buffer with flags 0,
    records the four commands into it, ends it, submits that one buffer
    once to the queue without a fence, and then waits for the device. *)
Theorem recorded_then_submitted_once (env : environment) (argv : list string) (r : Z) :
  final (main env argv) = Done r ->
  transfer_steps (trace (main env argv))
  = [ step_begin (env_cmd_buffer env) 0;
      step_command (env_cmd_buffer env) Barrier;
      step_command (env_cmd_buffer env) BufferToImage;
      step_command (env_cmd_buffer env) Barrier;
      step_command (env_cmd_buffer env) ImageToBuffer;
      step_end (env_cmd_buffer env);
      step_submit (env_queue env) [env_cmd_buffer env] VK_NULL_HANDLE;
      step_wait_idle (env_device env) ].
Proof.
  run_main env argv; try discriminate. intros _. reflexivity.
Qed.

Lemma recorded_then_submitted_once_witness :
  length (transfer_steps (trace (main sample_env sample_argv))) = 8%nat.
Proof.
  rewrite (recorded_then_submitted_once sample_env sample_argv 0);
    [reflexivity | vm_compute; reflexivity].
Defined.

(** X15: the pixbuf saved is always built with an alpha channel and 8
    bits a sample, around the bytes of the destination mapping: when the
    input decodes without alpha, what is written differs from it. *)
Theorem input_without_alpha_is_relabelled (env : environment) (argv : list string)
    (r : Z) (input : GdkPixbuf) :
  final (main env argv) = Done r ->
  env_pixbuf_new_from_file env (arg argv 1) = inl input ->
  pb_has_alpha input = false ->
  exists p, written_files (trace (main env argv)) = [(arg argv 2, p)]
            /\ pb_has_alpha p = true /\ pb_bits_per_sample p = 8
            /\ pb_pixels p = env_dst_mapped env
            /\ p <> input.
Proof.
  intros Hdone Hin Halpha. revert Hdone.
  run_main env argv; try discriminate. intros _.
  assert (pixbuf = input) as -> by congruence.
  eexists. split; [reflexivity |]. repeat (split; [reflexivity |]).
  intros E. rewrite <- E in Halpha. discriminate.
Qed.

Lemma input_without_alpha_is_relabelled_witness :
  exists p,
    written_files
      (trace (main (sample_env_with 1 1 (fun _ => inl grey_rgb) None) sample_argv))
    = [("out.png"%string, p)] /\ pb_has_alpha p = true.
Proof.
  destruct (input_without_alpha_is_relabelled
              (sample_env_with 1 1 (fun _ => inl grey_rgb) None) sample_argv 0 grey_rgb)
    as (p & Hw & Ha & _); [vm_compute; reflexivity | reflexivity | reflexivity |].
  exists p. split; [exact Hw | exact Ha].
Defined.

(** X18: in every run the decoder is called at most once, on [argv[1]],
    and the encoder at most once, on [argv[2]] with type "png"; the encoder
    is never called without the decoder having been. *)
Theorem files_touched (env : environment) (argv : list string) :
  (decoded_files (trace (main env argv)) = []
   \/ decoded_files (trace (main env argv)) = [arg argv 1])
  /\ (save_targets (trace (main env argv)) = []
      \/ save_targets (trace (main env argv)) = [(arg argv 2, "png"%string)])
  /\ (save_targets (trace (main env argv)) <> [] ->
      decoded_files (trace (main env argv)) = [arg argv 1]).
Proof.
  run_main env argv; cbn; repeat split; auto; intros H; congruence.
Qed.

Lemma files_touched_witness :
  decoded_files (trace (main sample_env sample_argv)) = ["in.png"%string].
Proof.
  apply (files_touched sample_env sample_argv). vm_compute. discriminate.
Defined.

(** X16: [init_vk] returns when its four assertions hold, having stored
    instance, physical device, memory properties, device and queue as
    handed back and left the other fields of [struct data] alone;
    otherwise it aborts after instance-level calls only. *)
Theorem init_vk_result (env : environment) (vc : data) :
  (init_vk_checks env = true ->
   exists vc',
     final (init_vk env vc) = Done vc'
     /\ instance vc' = env_instance env
     /\ physical_device vc' = env_physical_device env
     /\ memory_properties vc' = env_memory_properties env
     /\ device vc' = env_device env
     /\ queue vc' = env_queue env
     /\ (cmd_pool vc', src_buffer vc', src_mem vc', dst_image vc', dst_image_mem vc',
         dst_buffer vc', dst_mem vc', width vc', height vc', row_stride vc', size vc')
        = (cmd_pool vc, src_buffer vc, src_mem vc, dst_image vc, dst_image_mem vc,
           dst_buffer vc, dst_mem vc, width vc, height vc, row_stride vc, size vc))
  /\ (init_vk_checks env = false ->
      final (init_vk env vc) = Aborted
      /\ Forall (fun e => instance_level e = true) (trace (init_vk env vc))).
Proof.
  unfold init_vk, init_vk_checks.
  destruct (env_enumerate_result env =? VK_SUCCESS);
    destruct (0 <? env_physical_device_count env);
    destruct (nonzero (env_protectedMemory env));
    destruct (0 <? env_queue_family_count env);
    destruct (nonzero (Z.land (env_queueFlags env) VK_QUEUE_GRAPHICS_BIT));
    cbn; (split; [intros Hc; try discriminate Hc | intros Hc; try discriminate Hc]);
    try (split; [reflexivity | repeat constructor]).
  eexists. repeat (split; [reflexivity |]). reflexivity.
Qed.

Lemma init_vk_result_witness :
  exists vc', final (init_vk sample_env zero_data) = Done vc' /\ device vc' = 3.
Proof.
  destruct (proj1 (init_vk_result sample_env zero_data) eq_refl)
    as (vc' & Hf & _ & _ & _ & Hd & _).
  exists vc'. split; [exact Hf | exact Hd].
Defined.

(** X17: when [init_image] returns, the file decoded, the four size
    fields hold the pixbuf's width, height, row stride and byte length
    reduced to 32 bits, the six resource fields hold the handles handed
    back, and the device fields are as they were. *)
Theorem init_image_result (env : environment) (vc vc' : data) (filename : string) :
  final (init_image env vc filename) = Done vc' ->
  exists pixbuf,
    env_pixbuf_new_from_file env filename = inl pixbuf
    /\ width vc' = uint32 (gdk_pixbuf_get_width pixbuf)
    /\ height vc' = uint32 (gdk_pixbuf_get_height pixbuf)
    /\ row_stride vc' = uint32 (gdk_pixbuf_get_rowstride pixbuf)
    /\ size vc' = uint32 (gdk_pixbuf_get_byte_length pixbuf)
    /\ (src_buffer vc', src_mem vc', dst_image vc', dst_image_mem vc',
        dst_buffer vc', dst_mem vc')
       = (env_src_buffer env, env_src_mem env, env_dst_image env,
          env_dst_image_mem env, env_dst_buffer env, env_dst_mem env)
    /\ (instance vc', physical_device vc', memory_properties vc', device vc',
        queue vc', cmd_pool vc')
       = (instance vc, physical_device vc, memory_properties vc, device vc,
          queue vc, cmd_pool vc).
Proof.
  unfold init_image. cbn.
  destruct (env_pixbuf_new_from_file env filename) as [pixbuf | msg];
    [| cbn; discriminate].
  repeat match goal with
  | |- context [find_image_memory ?v ?a ?h ?p] =>
    destruct (find_image_memory v a h p); cbn; try discriminate
  end.
  intros [= <-]. exists pixbuf. repeat (split; [reflexivity |]). reflexivity.
Qed.

Lemma init_image_result_witness :
  exists pixbuf, env_pixbuf_new_from_file sample_env "in.png" = inl pixbuf.
Proof.
  destruct (init_image_result sample_env
              (set_memory_properties zero_data (env_memory_properties sample_env))
              (set_dst_mem (set_dst_buffer (set_dst_image_mem (set_dst_image
                 (set_src_mem (set_src_buffer (set_size (set_row_stride (set_height
                    (set_width (set_memory_properties zero_data
                                  (env_memory_properties sample_env)) 2) 1) 8) 8)
                  5) 6) 7) 8) 9) 10)
              "in.png")
    as (pixbuf & Hin & _); [vm_compute; reflexivity |].
  exists pixbuf. exact Hin.
Defined.

(** X19: on a full table with fewer than 31 memory types, or with bit
    31 and above clear in the three masks, [main] either returns 0 or
    aborts: it does not reach the undefined shift of the scan. *)
Theorem main_returns_or_aborts (env : environment) (argv : list string) :
  full_table (env_memory_properties env) ->
  memoryTypeCount (env_memory_properties env) < 31
  \/ (memoryTypeBits (env_src_requirements env) < 2 ^ 31
      /\ memoryTypeBits (env_image_requirements env) < 2 ^ 31
      /\ memoryTypeBits (env_dst_requirements env) < 2 ^ 31) ->
  final (main env argv) = Done 0 \/ final (main env argv) = Aborted.
Proof.
  intros Hfull Hsmall.
  assert (Hret : forall bits host protected,
    bits < 2 ^ 31 \/ memoryTypeCount (env_memory_properties env) < 31 ->
    exists r, find_image_memory (with_table (env_memory_properties env))
                bits host protected = Ret r).
  { intros bits host protected Hb.
    destruct (find_image_memory_returns (with_table (env_memory_properties env))
                bits host protected Hfull Hb) as (r & Hr & _).
    exists r. exact Hr. }
  pose proof (Hret (memoryTypeBits (env_src_requirements env)) true false
                ltac:(tauto)) as [r1 H1].
  pose proof (Hret (memoryTypeBits (env_image_requirements env)) false true
                ltac:(tauto)) as [r2 H2].
  pose proof (Hret (memoryTypeBits (env_dst_requirements env)) true false
                ltac:(tauto)) as [r3 H3].
  run_main env argv; auto; congruence.
Qed.

Lemma main_returns_or_aborts_witness :
  final (main sample_env sample_argv) = Done 0
  \/ final (main sample_env sample_argv) = Aborted.
Proof.
  apply (main_returns_or_aborts sample_env sample_argv).
  - reflexivity.
  - left. cbn. lia.
Defined.
